(** * Manual journals: the posting handlers of [Accounting.js]

    A shallow embedding of [server/src/http/controllers/Accounting.js]:
    the express-validator chains and the handlers of
    [makeJournalEntries], [editManualJournal] and [deleteManualJournal],
    run against an explicit store holding the three tables the handlers
    query (manual journals, accounts, account transactions) and the
    account balances.  The classes [JournalEntry] and [JournalPoster]
    are imported by the controller from [@/services/Accounting]; they are
    modelled from the specification and marked as such. *)

From stdpp Require Import gmap strings list fin_maps.
From Stdlib Require Import ZArith.

#[local] Open Scope Z_scope.

(** ** Values of the request and of the response *)

(** A request field under [isNumeric().toInt()].  [Absent] is [undefined]
    or [null] (both skipped by [optional({ nullable: true })]);
    [Numeric n] is a value accepted by [isNumeric] that [toInt] turns into
    [n]; [Invalid] is anything [isNumeric] refuses. *)
Inductive field :=
| Absent
| Numeric (n : Z)
| Invalid.

(** One element of [req.body.entries] before validation. *)
Record raw_entry := {
  raw_credit : field;
  raw_debit : field;
  raw_account_id : field;
  raw_note : option string;
}.

(** [req.body]; [None] is a missing field, and for [body_entries] also a
    value that is not an array. *)
Record body := {
  body_date : option string;
  body_journal_number : option string;
  body_transaction_type : option string;
  body_reference : option string;
  body_description : option string;
  body_entries : option (list raw_entry);
}.

(** One element of [form.entries] after the sanitizers ran: an amount is
    the JavaScript number [toInt] returned, kept as the integer the
    double denotes ([INFINITY] for [Infinity]), or [None] for
    [undefined], [null] and [NaN]. *)
Record entry := {
  account_id : Z;
  credit : option Z;
  debit : option Z;
  note : option string;
}.

(** [form = { date, transaction_type, reference, ...req.body }]. *)
Record form := {
  date : string;
  reference : string;
  journal_number : string;
  description : option string;
  entries : list entry;
}.

(** JavaScript values an answer object can hold: the handlers store
    strings and numbers; arrays of ids are there to state what an answer
    does not hold. *)
Inductive value :=
| VStr (s : string)
| VNum (n : Z)
| VArr (l : list Z).

(** An element of [errorReasons]: an object literal, kept as the list of
    its keys and values. *)
Definition error_reason := list (string * value).

Inductive exception :=
| InvalidEntryError
| PersistenceError
| TypeError
| RangeError.

(** What a handler does with [res], or the rejection of its promise. *)
Inductive response :=
| BadData
| Errors (status : Z) (errors : list error_reason)
| Ok (id : option Z)
| Throw (e : exception).

(** [res.status(status).send({ errors })].  Writing the head of a
    response whose status code is not within 100..999 throws
    [RangeError]: nothing is sent. *)
Definition send_errors (status : Z) (errors : list error_reason) : response :=
  if (100 <=? status) && (status <=? 999)
  then Errors status errors
  else Throw RangeError.

(** ** The store *)

Inductive normal := NormalDebit | NormalCredit.

(** A row of [Account] with its [type.normal]. *)
Record Account := {
  acc_id : Z;
  acc_normal : normal;
}.

(** A row of [ManualJournal]. *)
Record ManualJournal := {
  mj_id : Z;
  mj_reference : string;
  mj_transaction_type : string;
  mj_journal_number : string;
  mj_amount : Z;
  mj_date : string;
  mj_description : option string;
  mj_user_id : Z;
}.

(** A row of [AccountTransaction]. *)
Record AccountTransaction := {
  tr_id : Z;
  tr_account : Z;
  tr_credit : option Z;
  tr_debit : option Z;
  tr_reference_type : string;
  tr_reference_id : Z;
  tr_note : option string;
  tr_date : string;
  tr_user_id : Z;
}.

Record store := {
  manual_journals : list ManualJournal;
  accounts : list Account;
  account_transactions : list AccountTransaction;
  account_balances : gmap Z Z;
  next_journal_id : Z;
  next_transaction_id : Z;
}.

(** The running balance of an account; an account without a row has 0. *)
Definition balance (s : store) (a : Z) : Z :=
  default 0 (account_balances s !! a).

(** The writes a handler issues, and which of them the store rejects. *)
Inductive write := DocumentWrite | EntriesWrite | BalanceWrite.

Definition no_fault : write -> bool := fun _ => false.


(** ** The error objects of the controller *)

Definition reason (type : string) (code : Z) : error_reason :=
  [("type"%string, VStr type); ("code"%string, VNum code)].

Definition SUMATION_ZERO : error_reason :=
  reason "CREDIT.DEBIT.SUMATION.SHOULD.NOT.EQUAL.ZERO" 400.
Definition NOT_EQUALS : error_reason :=
  reason "CREDIT.DEBIT.NOT.EQUALS" 100.
Definition ACCOUNTS_IDS_NOT_FOUND : error_reason :=
  reason "ACCOUNTS.IDS.NOT.FOUND" 200.
Definition JOURNAL_NUMBER_ALREADY_EXISTS : error_reason :=
  reason "JOURNAL.NUMBER.ALREADY.EXISTS" 300.
Definition MANUAL_JOURNAL_NOT_FOUND : error_reason :=
  reason "MANUAL.JOURNAL.NOT.FOUND" 100.

(** ** JavaScript operators on the sanitized amounts *)

(** Truthiness of an amount: a number other than 0. *)
Definition truthy (x : option Z) : bool :=
  match x with
  | Some n => negb (n =? 0)
  | None => false
  end.

(** [x > 0]; false for [undefined] and [null]. *)
Definition gt0 (x : option Z) : bool :=
  match x with
  | Some n => 0 <? n
  | None => false
  end.

(** The callback of [form.entries.filter]: [entry.credit || entry.debit]. *)
Definition nonEmpty (e : entry) : bool :=
  truthy (credit e) || truthy (debit e).

(** [Infinity], as the first power of two no double reaches. *)
Definition INFINITY : Z := 2 ^ 1024.

(** The double nearest to an integer, ties to even: an integer below
    2^53 in absolute value is a double; a larger one is rounded to 53
    significant bits. *)
Definition round53 (z : Z) : Z :=
  let a := Z.abs z in
  if a <? 2 ^ 53 then z
  else
    let q := 2 ^ (Z.log2 a - 52) in
    let d := a / q in
    let r := a mod q in
    let d' :=
      if 2 * r <? q then d
      else if q <? 2 * r then d + 1
      else if Z.even d then d else d + 1 in
    Z.sgn z * (d' * q).

(** [a + b] on JavaScript numbers of integer value: the sum is rounded
    to the nearest double and overflows to [Infinity]. *)
Definition js_add (a b : Z) : Z :=
  let r := round53 (a + b) in
  if INFINITY <=? r then INFINITY
  else if r <=? - INFINITY then - INFINITY
  else r.

(** The [forEach] that accumulates [totalCredit] and [totalDebit] with
    [+=] on JavaScript numbers. *)
Definition totals (es : list entry) : Z * Z :=
  fold_left
    (fun '(totalCredit, totalDebit) e =>
       (if gt0 (credit e) then js_add totalCredit (default 0 (credit e))
        else totalCredit,
        if gt0 (debit e) then js_add totalDebit (default 0 (debit e))
        else totalDebit))
    es (0, 0).

(** ** Field updates of the store *)

Definition set_manual_journals (f : list ManualJournal -> list ManualJournal)
    (s : store) : store :=
  {| manual_journals := f (manual_journals s);
     accounts := accounts s;
     account_transactions := account_transactions s;
     account_balances := account_balances s;
     next_journal_id := next_journal_id s;
     next_transaction_id := next_transaction_id s |}.

Definition set_account_transactions
    (f : list AccountTransaction -> list AccountTransaction) (s : store) : store :=
  {| manual_journals := manual_journals s;
     accounts := accounts s;
     account_transactions := f (account_transactions s);
     account_balances := account_balances s;
     next_journal_id := next_journal_id s;
     next_transaction_id := next_transaction_id s |}.

Definition set_account_balances (f : gmap Z Z -> gmap Z Z) (s : store) : store :=
  {| manual_journals := manual_journals s;
     accounts := accounts s;
     account_transactions := account_transactions s;
     account_balances := f (account_balances s);
     next_journal_id := next_journal_id s;
     next_transaction_id := next_transaction_id s |}.

(** ** [JournalEntry] *)

Module JournalEntry.

(** The object handed to [new JournalEntry({...})] by the handler. *)
Record t := {
  debit : option Z;
  credit : option Z;
  account : Z;
  referenceType : string;
  referenceId : Z;
  accountNormal : normal;
  note : option string;
  date : string;
  userId : Z;
}.

(** Modelled from the spec: the check of the constructor of
    [JournalEntry] (services/Accounting/JournalEntry is not among the
    sources).  Exactly one of debit and credit is set, and its amount is
    above zero: both set, neither set, and a set amount that is zero or
    negative are invalid. *)
Definition valid (debit credit : option Z) : bool :=
  match debit, credit with
  | Some d, None => 0 <? d
  | None, Some c => 0 <? c
  | _, _ => false
  end.

(** Modelled from the spec: the constructor of [JournalEntry], which
    rejects an invalid entry with [InvalidEntryError]. *)
Definition new (e : t) : exception + t :=
  if valid (debit e) (credit e) then inr e else inl InvalidEntryError.

End JournalEntry.

(** ** [JournalPoster] *)

Module JournalPoster.

(** Modelled from the spec: the two buckets staged entries are split
  into. *)
Inductive bucket := DebitBucket | CreditBucket.

(** A persisted entry with the [account.type] fetched along with it;
    [None] when the account row no longer exists. *)
Definition loaded_entry : Type := AccountTransaction * option normal.

(** Modelled from the spec: the handle of one posting operation
    (services/Accounting/JournalPoster is not among the sources): the
    staged entries with their bucket, the loaded entries, and the
    entries pending deletion. *)
Record t := {
  entries : list (bucket * JournalEntry.t);
  loaded : list loaded_entry;
  deleted : list loaded_entry;
}.

(** Modelled from the spec: [new JournalPoster()], a handle with
    nothing staged or loaded. *)
Definition new : t := {| entries := []; loaded := []; deleted := [] |}.

(** Modelled from the spec: the balance delta rule.  On a debit-normal
    account the delta is [debit - credit], on a credit-normal account
    [credit - debit]; an absent amount counts as 0. *)
Definition delta (n : normal) (debit credit : option Z) : Z :=
  match n with
  | NormalDebit => default 0 debit - default 0 credit
  | NormalCredit => default 0 credit - default 0 debit
  end.

(** Modelled from the spec: staging an entry in the debit bucket. *)
Definition debit (e : JournalEntry.t) (p : t) : t :=
  {| entries := entries p ++ [(DebitBucket, e)];
     loaded := loaded p; deleted := deleted p |}.

(** Modelled from the spec: staging an entry in the credit bucket. *)
Definition credit (e : JournalEntry.t) (p : t) : t :=
  {| entries := entries p ++ [(CreditBucket, e)];
     loaded := loaded p; deleted := deleted p |}.

(** Modelled from the spec: loads previously persisted entries into
    the handle. *)
Definition loadEntries (transactions : list loaded_entry) (p : t) : t :=
  {| entries := entries p; loaded := loaded p ++ transactions;
     deleted := deleted p |}.

(** Modelled from the spec: marks every loaded entry as pending
    deletion; its inverse delta is part of [balancesChange]. *)
Definition removeEntries (p : t) : t :=
  {| entries := entries p; loaded := loaded p;
     deleted := deleted p ++ loaded p |}.

(** Modelled from the spec: the per-entry contributions to the
    balances: the delta of every staged entry and the negated delta of
    every entry pending deletion.  An entry whose account row is gone
    has no balance to reverse. *)
Definition balancesChange (p : t) : list (Z * Z) :=
  map (fun '(_, e) =>
         (JournalEntry.account e,
          delta (JournalEntry.accountNormal e)
                (JournalEntry.debit e) (JournalEntry.credit e)))
      (entries p)
  ++ omap (fun '(t, n) =>
             match n with
             | Some n => Some (tr_account t, - delta n (tr_debit t) (tr_credit t))
             | None => None
             end)
          (deleted p).

(** Modelled from the spec: the row persisted for a staged entry. *)
Definition transaction_of (id : Z) (e : JournalEntry.t) : AccountTransaction :=
  {| tr_id := id;
     tr_account := JournalEntry.account e;
     tr_credit := JournalEntry.credit e;
     tr_debit := JournalEntry.debit e;
     tr_reference_type := JournalEntry.referenceType e;
     tr_reference_id := JournalEntry.referenceId e;
     tr_note := JournalEntry.note e;
     tr_date := JournalEntry.date e;
     tr_user_id := JournalEntry.userId e |}.

(** Modelled from the spec: the insert of one staged entry, under the
  next transaction id. *)
Definition insert_entry (s : store) (e : JournalEntry.t) : store :=
  {| manual_journals := manual_journals s;
     accounts := accounts s;
     account_transactions :=
       account_transactions s ++ [transaction_of (next_transaction_id s) e];
     account_balances := account_balances s;
     next_journal_id := next_journal_id s;
     next_transaction_id := next_transaction_id s + 1 |}.

(** Modelled from the spec: inserts all staged entries. *)
Definition saveEntries (p : t) (s : store) : store :=
  fold_left insert_entry (map snd (entries p)) s.

(** Modelled from the spec: deletes all entries pending deletion. *)
Definition deleteEntries (p : t) (s : store) : store :=
  set_account_transactions
    (List.filter (fun t =>
       negb (existsb (fun '(d, _) => tr_id d =? tr_id t) (deleted p))))
    s.

(** Modelled from the spec: the increment of one account balance. *)
Definition apply_change (b : gmap Z Z) (c : Z * Z) : gmap Z Z :=
  <[c.1 := default 0 (b !! c.1) + c.2]> b.

(** Modelled from the spec: applies the net per-account delta to the
    account balances. *)
Definition saveBalance (p : t) (s : store) : store :=
  set_account_balances (fun b => fold_left apply_change (balancesChange p) b) s.

End JournalPoster.

(** [await Promise.all([...])] over calls of the poster.  The handlers
    open no transaction and every call is started before the promise is
    awaited: a write the store accepts lands whether or not another one
    is rejected, and the promise, hence the handler, is rejected with
    [PersistenceError] when the store rejected one of them.  (From the
    spec comes only that a rejected write of the poster leaves nothing of
    its own behind.) *)
Definition commit (fails : write -> bool) (ws : list (write * (store -> store)))
    (s : store) : store * option exception :=
  (fold_left (fun s w => if fails w.1 then s else w.2 s) ws s,
   if existsb (fun w => fails w.1) ws then Some PersistenceError else None).

(** ** Queries of the handlers *)

(** [Account.query().whereIn('id', accountsIds).withGraphFetched('type')]. *)
Definition accounts_whereIn (accountsIds : list Z) (s : store) : list Account :=
  List.filter (fun a => existsb (Z.eqb (acc_id a)) accountsIds) (accounts s).

(** [ManualJournal.query().where('id', id).first()]. *)
Definition journal_by_id (id : Z) (s : store) : option ManualJournal :=
  find (fun d => mj_id d =? id) (manual_journals s).

(** [ManualJournal.query().where('journal_number', n)]. *)
Definition journals_by_number (n : string) (s : store) : list ManualJournal :=
  List.filter (fun d => String.eqb (mj_journal_number d) n) (manual_journals s).

(** [ManualJournal.query().where('journal_number', n).whereNot('id', id).first()]. *)
Definition other_journal_by_number (n : string) (id : Z) (s : store)
    : option ManualJournal :=
  find (fun d => String.eqb (mj_journal_number d) n && negb (mj_id d =? id))
       (manual_journals s).

(** [AccountTransaction.query().whereIn('reference_type', types)
      .where('reference_id', id).withGraphFetched('account.type')]. *)
Definition transactions_of (types : list string) (id : Z) (s : store)
    : list JournalPoster.loaded_entry :=
  map (fun t =>
         (t, acc_normal <$> find (fun a => acc_id a =? tr_account t) (accounts s)))
      (List.filter
         (fun t => existsb (String.eqb (tr_reference_type t)) types
                   && (tr_reference_id t =? id))
         (account_transactions s)).

(** The sanitized value of an optional amount; [Invalid] fails
    [isNumeric]. *)
Definition amount_field (f : field) : option (option Z) :=
  match f with
  | Absent => Some None
  | Numeric n => Some (Some n)
  | Invalid => None
  end.

(** The sanitized value of a required numeric field. *)
Definition numeric_field (f : field) : option Z :=
  match f with
  | Numeric n => Some n
  | Absent | Invalid => None
  end.

(** The checks on [entries.*]: [credit] and [debit] optional and
    numeric, [account_id] numeric, [note] optional. *)
Definition validate_entry (r : raw_entry) : option entry :=
  c ← amount_field (raw_credit r);
  d ← amount_field (raw_debit r);
  a ← numeric_field (raw_account_id r);
  Some {| account_id := a; credit := c; debit := d; note := raw_note r |}.

(** ** The controller *)

Section Controller.

(** Library functions the controller calls: validator's [isISO8601], the
    sanitizers [trim().escape()], and [moment(d).format('YYYY-MM-DD')]. *)
Variable isISO8601 : string -> bool.
Variable trim_escape : string -> string.
Variable format_date : string -> string.

(** Which writes the store rejects during the call. *)
Variable fails : write -> bool.

(** The chain of [check(...)] shared by [makeJournalEntries.validation]
    and [editManualJournal.validation]; [None] when [validationResult]
    is not empty.  [entries] must be an array of at least 2 elements. *)
Definition body_validation (b : body) : option form :=
  d ← body_date b;
  n ← body_journal_number b;
  l ← body_entries b;
  es ← mapM validate_entry l;
  if isISO8601 d && (2 <=? length l)%nat
  then Some {| date := d;
               reference := default ""%string (body_reference b);
               journal_number := trim_escape n;
               description := trim_escape <$> body_description b;
               entries := es |}
  else None.

Definition makeJournalEntries_validation : body -> option form :=
  body_validation.

(** [param('id')] followed by the checks of the body. *)
Definition editManualJournal_validation (id : field) (b : body)
    : option (Z * form) :=
  i ← numeric_field id;
  f ← body_validation b;
  Some (i, f).

Definition deleteManualJournal_validation (id : field) : option Z :=
  numeric_field id.

(** The two checks on the totals, in the order the handlers push them. *)
Definition total_errors (totalCredit totalDebit : Z) : list error_reason :=
  (if (totalCredit <=? 0) || (totalDebit <=? 0) then [SUMATION_ZERO] else [])
  ++ (if negb (totalCredit =? totalDebit) then [NOT_EQUALS] else []).

(** [difference(accountsIds, storedAccountsIds).length > 0]. *)
Definition account_errors (accountsIds storedAccountsIds : list Z)
    : list error_reason :=
  match list_difference accountsIds storedAccountsIds with
  | [] => []
  | _ :: _ => [ACCOUNTS_IDS_NOT_FOUND]
  end.

(** [ManualJournal.query().insert({...})]: the row gets the next id. *)
Definition insert_journal (d : ManualJournal) (s : store) : store :=
  {| manual_journals := manual_journals s ++ [d];
     accounts := accounts s;
     account_transactions := account_transactions s;
     account_balances := account_balances s;
     next_journal_id := next_journal_id s + 1;
     next_transaction_id := next_transaction_id s |}.

(** One round of the [entries.forEach] of [makeJournalEntries]: find the
    account, build the [JournalEntry], stage it as a debit when
    [entry.debit] is truthy and as a credit otherwise. *)
Definition stage_entry (accounts : list Account) (formattedDate : string)
    (user : Z) (manualJournal : ManualJournal)
    (acc : exception + JournalPoster.t) (e : entry)
    : exception + JournalPoster.t :=
  match acc with
  | inl x => inl x
  | inr journalPoster =>
      match find (fun a => acc_id a =? account_id e) accounts with
      | None => inl TypeError
      | Some account =>
          match JournalEntry.new
                  {| JournalEntry.debit := debit e;
                     JournalEntry.credit := credit e;
                     JournalEntry.account := acc_id account;
                     JournalEntry.referenceType := "Journal";
                     JournalEntry.referenceId := mj_id manualJournal;
                     JournalEntry.accountNormal := acc_normal account;
                     JournalEntry.note := note e;
                     JournalEntry.date := formattedDate;
                     JournalEntry.userId := user |}
          with
          | inl x => inl x
          | inr jouranlEntry =>
              if truthy (debit e)
              then inr (JournalPoster.debit jouranlEntry journalPoster)
              else inr (JournalPoster.credit jouranlEntry journalPoster)
          end
      end
  end.

(** [makeJournalEntries.handler]. *)
Definition makeJournalEntries_handler (s : store) (user : Z) (b : body)
    : store * response :=
  match makeJournalEntries_validation b with
  | None => (s, BadData)
  | Some form =>
      let entries := List.filter nonEmpty (entries form) in
      let formattedDate := format_date (date form) in
      let '(totalCredit, totalDebit) := totals entries in
      let accountsIds := map account_id entries in
      let accounts := accounts_whereIn accountsIds s in
      let storedAccountsIds := map acc_id accounts in
      let journalNumber := journals_by_number (journal_number form) s in
      let errorReasons :=
        total_errors totalCredit totalDebit
        ++ account_errors accountsIds storedAccountsIds
        ++ (match journalNumber with
            | [] => []
            | _ :: _ => [JOURNAL_NUMBER_ALREADY_EXISTS]
            end) in
      match errorReasons with
      | _ :: _ => (s, Errors 400 errorReasons)
      | [] =>
          if fails DocumentWrite then (s, Throw PersistenceError)
          else
            let manualJournal :=
              {| mj_id := next_journal_id s;
                 mj_reference := reference form;
                 mj_transaction_type := "Journal";
                 mj_journal_number := journal_number form;
                 mj_amount := totalCredit;
                 mj_date := formattedDate;
                 mj_description := description form;
                 mj_user_id := user |} in
            let s1 := insert_journal manualJournal s in
            match fold_left
                    (stage_entry accounts formattedDate user manualJournal)
                    entries (inr JournalPoster.new)
            with
            | inl x => (s1, Throw x)
            | inr journalPoster =>
                match commit fails
                        [(EntriesWrite, JournalPoster.saveEntries journalPoster);
                         (BalanceWrite, JournalPoster.saveBalance journalPoster)]
                        s1
                with
                | (s2, Some x) => (s2, Throw x)
                | (s2, None) => (s2, Ok (Some (mj_id manualJournal)))
                end
            end
      end
  end.

(** [ManualJournal.query().where('id', id).update({...})].  The handler
    spells the key of the journal number [journalNumber]; it is taken to
    name the column [journal_number]. *)
Definition update_journal (id : Z) (form : form) (totalCredit : Z)
    (formattedDate : string) (d : ManualJournal) : ManualJournal :=
  if mj_id d =? id
  then {| mj_id := mj_id d;
          mj_reference := reference form;
          mj_transaction_type := "Journal";
          mj_journal_number := journal_number form;
          mj_amount := totalCredit;
          mj_date := formattedDate;
          mj_description := description form;
          mj_user_id := mj_user_id d |}
  else d.

(** [editManualJournal.handler].  The poster only loads and removes the
    stored entries: no entry of the request is staged before
    [saveEntries].  The answer for a missing document is sent with
    status 4040. *)
Definition editManualJournal_handler (s : store) (user : Z) (id : field)
    (b : body) : store * response :=
  match editManualJournal_validation id b with
  | None => (s, BadData)
  | Some (id, form) =>
      match journal_by_id id s with
      | None => (s, send_errors 4040 [MANUAL_JOURNAL_NOT_FOUND])
      | Some manualJournal =>
          let entries := List.filter nonEmpty (entries form) in
          let formattedDate := format_date (date form) in
          let '(totalCredit, totalDebit) := totals entries in
          let journalNumber :=
            other_journal_by_number (journal_number form) id s in
          let accountsIds := map account_id entries in
          let accounts := accounts_whereIn accountsIds s in
          let storedAccountsIds := map acc_id accounts in
          let errorReasons :=
            total_errors totalCredit totalDebit
            ++ (match journalNumber with
                | None => []
                | Some _ => [JOURNAL_NUMBER_ALREADY_EXISTS]
                end)
            ++ account_errors accountsIds storedAccountsIds in
          match errorReasons with
          | _ :: _ => (s, Errors 400 errorReasons)
          | [] =>
              if fails DocumentWrite then (s, Throw PersistenceError)
              else
                let s1 :=
                  set_manual_journals
                    (map (update_journal (mj_id manualJournal) form
                            totalCredit formattedDate)) s in
                let transactions :=
                  transactions_of ["Journal"%string] (mj_id manualJournal) s1 in
                let journal :=
                  JournalPoster.removeEntries
                    (JournalPoster.loadEntries transactions JournalPoster.new) in
                match commit fails
                        [(EntriesWrite, JournalPoster.deleteEntries journal);
                         (EntriesWrite, JournalPoster.saveEntries journal);
                         (BalanceWrite, JournalPoster.saveBalance journal)]
                        s1
                with
                | (s2, Some x) => (s2, Throw x)
                | (s2, None) => (s2, Ok None)
                end
          end
      end
  end.

(** [deleteManualJournal.handler]. *)
Definition deleteManualJournal_handler (s : store) (id : field)
    : store * response :=
  match deleteManualJournal_validation id with
  | None => (s, BadData)
  | Some id =>
      match journal_by_id id s with
      | None => (s, Errors 404 [MANUAL_JOURNAL_NOT_FOUND])
      | Some manualJournal =>
          let transactions :=
            transactions_of ["Journal"%string; "ManualJournal"%string]
                            (mj_id manualJournal) s in
          let journal :=
            JournalPoster.removeEntries
              (JournalPoster.loadEntries transactions JournalPoster.new) in
          if fails DocumentWrite then (s, Throw PersistenceError)
          else
            let s1 :=
              set_manual_journals
                (List.filter (fun d => negb (mj_id d =? mj_id manualJournal))) s in
            match commit fails
                    [(EntriesWrite, JournalPoster.deleteEntries journal);
                     (BalanceWrite, JournalPoster.saveBalance journal)]
                    s1
            with
            | (s2, Some x) => (s2, Throw x)
            | (s2, None) => (s2, Ok (Some id))
            end
      end
  end.

End Controller.

(** ** A running example: the scenario of two accounts *)

(** Account 1 is debit-normal, account 2 credit-normal; nothing is posted. *)
Definition store0 : store :=
  {| manual_journals := [];
     accounts := [ {| acc_id := 1; acc_normal := NormalDebit |};
                   {| acc_id := 2; acc_normal := NormalCredit |} ];
     account_transactions := [];
     account_balances := ∅;
     next_journal_id := 1;
     next_transaction_id := 1 |}.

Definition line (a : Z) (d c : field) : raw_entry :=
  {| raw_credit := c; raw_debit := d; raw_account_id := Numeric a;
     raw_note := None |}.

Definition request (n : string) (l : list raw_entry) : body :=
  {| body_date := Some "2020-01-01"%string;
     body_journal_number := Some n;
     body_transaction_type := None;
     body_reference := None;
     body_description := None;
     body_entries := Some l |}.

Definition any_date : string -> bool := fun _ => true.
Definition same : string -> string := fun x => x.

Definition create (fails : write -> bool) (s : store) (n : string)
    (l : list raw_entry) : store * response :=
  makeJournalEntries_handler any_date same same fails s 7 (request n l).

Definition edit (fails : write -> bool) (s : store) (id : Z) (n : string)
    (l : list raw_entry) : store * response :=
  editManualJournal_handler any_date same same fails s 7 (Numeric id)
    (request n l).

(** The store after journal "J-1" posted 100 from account 1 to account 2. *)
Definition store1 : store :=
  (create no_fault store0 "J-1"
     [line 1 (Numeric 100) Absent; line 2 Absent (Numeric 100)]).1.

(** The form the validation makes of [request n l] when every line is
    valid. *)
Definition form_of (n : string) (es : list entry) : form :=
  {| date := "2020-01-01"; reference := ""; journal_number := n;
     description := None; entries := es |}.

Definition entry_line (a : Z) (d c : option Z) : entry :=
  {| account_id := a; credit := c; debit := d; note := None |}.

(** A store whose document 1 has its two entries tagged
    ['ManualJournal']. *)
Definition store_tagged : store :=
  {| manual_journals := manual_journals store1;
     accounts := accounts store1;
     account_transactions :=
       [ {| tr_id := 1; tr_account := 1; tr_credit := None;
            tr_debit := Some 100; tr_reference_type := "ManualJournal";
            tr_reference_id := 1; tr_note := None; tr_date := "2020-01-01";
            tr_user_id := 7 |};
         {| tr_id := 2; tr_account := 2; tr_credit := Some 100;
            tr_debit := None; tr_reference_type := "ManualJournal";
            tr_reference_id := 1; tr_note := None; tr_date := "2020-01-01";
            tr_user_id := 7 |} ];
     account_balances := account_balances store1;
     next_journal_id := 2;
     next_transaction_id := 3 |}.

(** An error object carries a set of ids when one of its fields holds an
    array with exactly these ids. *)
Definition carries_ids (r : error_reason) (ids : list Z) : Prop :=
  exists k l, In (k, VArr l) r /\ forall x, In x l <-> In x ids.

(** ** The error list of a request *)

(** The [errorReasons] of [makeJournalEntries.handler] for a form. *)
Definition makeJournalEntries_errors (s : store) (f : form) : list error_reason :=
  let es := List.filter nonEmpty (entries f) in
  total_errors (totals es).1 (totals es).2
  ++ account_errors (map account_id es)
       (map acc_id (accounts_whereIn (map account_id es) s))
  ++ (match journals_by_number (journal_number f) s with
      | [] => []
      | _ :: _ => [JOURNAL_NUMBER_ALREADY_EXISTS]
      end).

(** The [errorReasons] of [editManualJournal.handler] for a form. *)
Definition editManualJournal_errors (s : store) (id : Z) (f : form)
    : list error_reason :=
  let es := List.filter nonEmpty (entries f) in
  total_errors (totals es).1 (totals es).2
  ++ (match other_journal_by_number (journal_number f) id s with
      | None => []
      | Some _ => [JOURNAL_NUMBER_ALREADY_EXISTS]
      end)
  ++ account_errors (map account_id es)
       (map acc_id (accounts_whereIn (map account_id es) s)).

(** ** The steps of a request that passed every check *)

Section Steps.

Variable format_date : string -> string.

(** The row [makeJournalEntries.handler] inserts for a form. *)
Definition create_document (s : store) (user : Z) (f : form) : ManualJournal :=
  {| mj_id := next_journal_id s;
     mj_reference := reference f;
     mj_transaction_type := "Journal";
     mj_journal_number := journal_number f;
     mj_amount := (totals (List.filter nonEmpty (entries f))).1;
     mj_date := format_date (date f);
     mj_description := description f;
     mj_user_id := user |}.

(** The poster after the staging [forEach] of [makeJournalEntries.handler],
    or the exception that stopped it. *)
Definition create_poster (s : store) (user : Z) (f : form)
    : exception + JournalPoster.t :=
  let es := List.filter nonEmpty (entries f) in
  fold_left
    (stage_entry (accounts_whereIn (map account_id es) s)
       (format_date (date f)) user (create_document s user f))
    es (inr JournalPoster.new).

(** The store after the [update] of [editManualJournal.handler]. *)
Definition edit_document (s : store) (id : Z) (f : form) : store :=
  set_manual_journals
    (map (update_journal id f (totals (List.filter nonEmpty (entries f))).1
            (format_date (date f))))
    s.

End Steps.

(** The store after the [delete] of [deleteManualJournal.handler]. *)
Definition delete_document (s : store) (id : Z) : store :=
  set_manual_journals (List.filter (fun d => negb (mj_id d =? id))) s.

(** The poster of an edit or a delete: the entries of document [id]
    whose reference type is among [types], loaded and removed. *)
Definition removal (types : list string) (id : Z) (s : store) : JournalPoster.t :=
  JournalPoster.removeEntries
    (JournalPoster.loadEntries (transactions_of types id s) JournalPoster.new).

(** The delta a stored entry applied to the balance of its account. *)
Definition loaded_delta (t : JournalPoster.loaded_entry) : Z :=
  match t.2 with
  | Some n => JournalPoster.delta n (tr_debit t.1) (tr_credit t.1)
  | None => 0
  end.

(** The balance effect of a list of stored entries on account [a]. *)
Definition effect_on (a : Z) (ts : list JournalPoster.loaded_entry) : Z :=
  fold_right
    (fun t acc => (if tr_account t.1 =? a then loaded_delta t else 0) + acc)
    0 ts.

(** The sum of the changes of a list of contributions for account [a]. *)
Definition change_on (a : Z) (cs : list (Z * Z)) : Z :=
  fold_right (fun c acc => (if c.1 =? a then c.2 else 0) + acc) 0 cs.


(** ** Handlers of the controller beside the posting ones *)

(** [req.body] of [quickJournalEntries].  For [amount] only whether
    [isNumeric] accepts it matters: the handler never reads it. *)
Record quick_body := {
  quick_date : option string;
  quick_amount : field;
  quick_credit_account_id : field;
  quick_debit_account_id : field;
  quick_transaction_type : option string;
  quick_note : option string;
}.

Definition CREDIT_ACCOUNT_NOT_EXIST : error_reason :=
  reason "CREDIT_ACCOUNT.NOT.EXIST" 100.
Definition DEBIT_ACCOUNT_NOT_EXIST : error_reason :=
  reason "DEBIT_ACCOUNT.NOT.EXIST" 200.

Section QuickJournal.

Variable isISO8601 : string -> bool.

(** [quickJournalEntries.validation]: the sanitized credit and debit
    account ids, or [None] when [validationResult] is not empty. *)
Definition quickJournalEntries_validation (b : quick_body) : option (Z * Z) :=
  d ← quick_date b;
  _ ← numeric_field (quick_amount b);
  c ← numeric_field (quick_credit_account_id b);
  de ← numeric_field (quick_debit_account_id b);
  _ ← quick_transaction_type b;
  if isISO8601 d then Some (c, de) else None.

(** [quickJournalEntries.handler].  The posting is commented out in the
    source: the handler only reads the accounts. *)
Definition quickJournalEntries_handler (s : store) (b : quick_body) : response :=
  match quickJournalEntries_validation b with
  | None => BadData
  | Some (credit_account_id, debit_account_id) =>
      let foundAccounts :=
        List.filter
          (fun a => (acc_id a =? credit_account_id)
                    || (acc_id a =? debit_account_id))
          (accounts s) in
      let creditAccount :=
        find (fun a => acc_id a =? credit_account_id) foundAccounts in
      let debitAccount :=
        find (fun a => acc_id a =? debit_account_id) foundAccounts in
      let errorReasons :=
        (match creditAccount with
         | None => [CREDIT_ACCOUNT_NOT_EXIST]
         | Some _ => []
         end)
        ++ (match debitAccount with
            | None => [DEBIT_ACCOUNT_NOT_EXIST]
            | Some _ => []
            end) in
      match errorReasons with
      | _ :: _ => Errors 400 errorReasons
      | [] => Ok None
      end
  end.

End QuickJournal.

(** [getManualJournal.handler]: [None] when the handler returns without
    sending anything, which is what it does once the document is found. *)
Definition getManualJournal_handler (s : store) (id : field) : option response :=
  match numeric_field id with
  | None => Some BadData
  | Some id =>
      match journal_by_id id s with
      | None => Some (Errors 404 [MANUAL_JOURNAL_NOT_FOUND])
      | Some _ => None
      end
  end.

(** ** What a successful create writes *)

(** The rows inserted for a list of staged entries, numbered from [n]. *)
Fixpoint rows_from (n : Z) (l : list JournalEntry.t) : list AccountTransaction :=
  match l with
  | [] => []
  | e :: l => JournalPoster.transaction_of n e :: rows_from (n + 1) l
  end.

(** The balance effect of a list of staged entries on account [a]. *)
Definition staged_effect (a : Z) (l : list JournalEntry.t) : Z :=
  fold_right
    (fun e acc =>
       (if JournalEntry.account e =? a
        then JournalPoster.delta (JournalEntry.accountNormal e)
               (JournalEntry.debit e) (JournalEntry.credit e)
        else 0) + acc)
    0 l.

(** The entry [makeJournalEntries.handler] builds for a line, given the
    account it found. *)
Definition entry_of (fd : string) (user id : Z) (account : Account) (e : entry)
    : JournalEntry.t :=
  {| JournalEntry.debit := debit e;
     JournalEntry.credit := credit e;
     JournalEntry.account := acc_id account;
     JournalEntry.referenceType := "Journal";
     JournalEntry.referenceId := id;
     JournalEntry.accountNormal := acc_normal account;
     JournalEntry.note := note e;
     JournalEntry.date := fd;
     JournalEntry.userId := user |}.

(** A staged entry [je] comes from line [e] of a create by [user] for
    document [id], with an account of the store. *)
Definition staged_from (s : store) (fd : string) (user id : Z) (e : entry)
    (je : JournalEntry.t) : Prop :=
  exists account,
    find (fun a => acc_id a =? account_id e) (accounts s) = Some account
    /\ je = entry_of fd user id account e.

(** Row [t] is the posting of line [e]. *)
Definition posted_as (fd : string) (user id : Z) (e : entry)
    (t : AccountTransaction) : Prop :=
  tr_account t = account_id e
  /\ tr_debit t = debit e
  /\ tr_credit t = credit e
  /\ tr_note t = note e
  /\ tr_date t = fd
  /\ tr_user_id t = user
  /\ tr_reference_type t = "Journal"%string
  /\ tr_reference_id t = id.


(** The ids of the store are below its counters, as they are when every
    row was inserted under the next id: no document, no entry and no
    reference of an entry uses an id that is still to be given. *)
Definition fresh_ids (s : store) : Prop :=
  (forall d, In d (manual_journals s) -> mj_id d < next_journal_id s)
  /\ (forall t, In t (account_transactions s) ->
        tr_id t < next_transaction_id s
        /\ tr_reference_id t < next_journal_id s).

(** An entry of the store joined with the type of its account, as
    [withGraphFetched('account.type')] returns it. *)
Definition with_account (s : store) (t : AccountTransaction)
    : JournalPoster.loaded_entry :=
  (t, acc_normal <$> find (fun a => acc_id a =? tr_account t) (accounts s)).


(** One round of the [forEach] of the totals. *)
Definition add_line (t : Z * Z) (e : entry) : Z * Z :=
  (if gt0 (credit e) then js_add t.1 (default 0 (credit e)) else t.1,
   if gt0 (debit e) then js_add t.2 (default 0 (debit e)) else t.2).

(** ** The lines a claim speaks of, in its words *)

(** A line with both its debit and its credit set. *)
Definition both_set (e : entry) : Prop :=
  is_Some (debit e) /\ is_Some (credit e).

(** A line with a set amount that is zero or negative. *)
Definition non_positive_set (e : entry) : Prop :=
  (exists n, debit e = Some n /\ n <= 0)
  \/ (exists n, credit e = Some n /\ n <= 0).


(** * Properties *)

Section Properties.

Variable isISO8601 : string -> bool.
Variable trim_escape : string -> string.
Variable format_date : string -> string.
Variable fails : write -> bool.

#[local] Abbreviation validation := (body_validation isISO8601 trim_escape).
#[local] Abbreviation create_handler :=
  (makeJournalEntries_handler isISO8601 trim_escape format_date fails).
#[local] Abbreviation edit_handler :=
  (editManualJournal_handler isISO8601 trim_escape format_date fails).
#[local] Abbreviation delete_handler := (deleteManualJournal_handler fails).

Lemma validation_length (b : body) (f : form) :
  validation b = Some f ->
  exists l, body_entries b = Some l /\ (2 <= length l)%nat
            /\ mapM validate_entry l = Some (entries f).
Proof.
  unfold body_validation. intros H.
  destruct (body_date b) as [d|]; [|discriminate].
  destruct (body_journal_number b) as [n|]; [|discriminate].
  destruct (body_entries b) as [l|]; [|discriminate].
  cbn -[Nat.leb] in H.
  destruct (mapM validate_entry l) as [es|] eqn:Hm; cbn -[Nat.leb] in H;
    [|discriminate].
  destruct (isISO8601 d); cbn -[Nat.leb] in H; [|discriminate].
  destruct (2 <=? length l)%nat eqn:Hl; [|discriminate].
  injection H as <-. exists l. split; [reflexivity|]. split; [|exact Hm].
  apply Nat.leb_le in Hl. exact Hl.
Qed.

Lemma short_entries_invalid (b : body) (l : list raw_entry) :
  body_entries b = Some l -> (length l < 2)%nat -> validation b = None.
Proof.
  intros Hb Hl. destruct (validation b) as [f|] eqn:Hv; [|reflexivity].
  apply validation_length in Hv as (l' & Hb' & Hl' & _).
  rewrite Hb in Hb'. injection Hb' as <-. lia.
Qed.

(** A request with errors is answered with status 400 and the errors,
    and the store is left as it was. *)
Lemma create_errors (s : store) (user : Z) (b : body) (f : form) :
  validation b = Some f ->
  makeJournalEntries_errors s f <> [] ->
  create_handler s user b = (s, Errors 400 (makeJournalEntries_errors s f)).
Proof.
  intros Hv He. unfold makeJournalEntries_handler, makeJournalEntries_validation.
  rewrite Hv. unfold makeJournalEntries_errors in *.
  destruct (totals (List.filter nonEmpty (entries f))) as [tc td]. simpl in *.
  match goal with
  | |- context [match ?e with [] => _ | _ :: _ => _ end = _] =>
      destruct e eqn:E
  end; [congruence|reflexivity].
Qed.

Lemma edit_errors (s : store) (user id : Z) (i : field) (b : body) (f : form)
    (d : ManualJournal) :
  numeric_field i = Some id ->
  validation b = Some f ->
  journal_by_id id s = Some d ->
  editManualJournal_errors s id f <> [] ->
  edit_handler s user i b = (s, Errors 400 (editManualJournal_errors s id f)).
Proof.
  intros Hi Hv Hd He. unfold editManualJournal_handler, editManualJournal_validation.
  rewrite Hi, Hv. simpl. rewrite Hd. unfold editManualJournal_errors in *.
  destruct (totals (List.filter nonEmpty (entries f))) as [tc td]. simpl in *.
  match goal with
  | |- context [match ?e with [] => _ | _ :: _ => _ end = _] =>
      destruct e eqn:E
  end; [congruence|reflexivity].
Qed.

(** [C10] A create or edit request whose [entries] array has fewer than
    2 elements is answered with the validation error before the
    handler computes totals or queries accounts and journal numbers,
    and the store is untouched. *)
Theorem short_entries_rejected (s : store) (user : Z) (id : field) (b : body)
    (l : list raw_entry) :
  body_entries b = Some l ->
  (length l < 2)%nat ->
  create_handler s user b = (s, BadData)
  /\ edit_handler s user id b = (s, BadData).
Proof.
  intros Hb Hl. pose proof (short_entries_invalid b l Hb Hl) as Hv.
  unfold makeJournalEntries_handler, editManualJournal_handler,
    makeJournalEntries_validation, editManualJournal_validation.
  rewrite Hv. split; [reflexivity|].
  destruct (numeric_field id); reflexivity.
Qed.

Lemma in_not_nil {A : Type} (x : A) (l : list A) : In x l -> l <> [].
Proof. intros H ->. destruct H. Qed.

Lemma in_total_errors_zero (tc td : Z) :
  tc <= 0 \/ td <= 0 -> In SUMATION_ZERO (total_errors tc td).
Proof.
  intros H. unfold total_errors. apply in_or_app. left.
  destruct (tc <=? 0) eqn:E1; [left; reflexivity|].
  destruct (td <=? 0) eqn:E2; [left; reflexivity|].
  apply Z.leb_gt in E1, E2. lia.
Qed.

Lemma in_total_errors_mismatch (tc td : Z) :
  tc <> td -> In NOT_EQUALS (total_errors tc td).
Proof.
  intros H. unfold total_errors. apply in_or_app. right.
  destruct (tc =? td) eqn:E; [apply Z.eqb_eq in E; contradiction|].
  left; reflexivity.
Qed.

(** [C3] After the empty lines are dropped: when [totalCredit] or
    [totalDebit] is zero or negative the create request is answered
    with the error CREDIT.DEBIT.SUMATION.SHOULD.NOT.EQUAL.ZERO, when
    they differ with CREDIT.DEBIT.NOT.EQUALS; in both cases the store
    (documents, entries, balances) is the one before the call. *)
Theorem unbalanced_totals_rejected (s : store) (user : Z) (b : body) (f : form) :
  validation b = Some f ->
  let es := List.filter nonEmpty (entries f) in
  ((totals es).1 <= 0 \/ (totals es).2 <= 0 ->
   exists errs, create_handler s user b = (s, Errors 400 errs)
                /\ In SUMATION_ZERO errs)
  /\ ((totals es).1 <> (totals es).2 ->
      exists errs, create_handler s user b = (s, Errors 400 errs)
                   /\ In NOT_EQUALS errs).
Proof.
  intros Hv es.
  assert (Hin : forall r, In r (total_errors (totals es).1 (totals es).2) ->
                          In r (makeJournalEntries_errors s f)).
  { intros r Hr. unfold makeJournalEntries_errors. apply in_or_app. left. exact Hr. }
  split; intros H; exists (makeJournalEntries_errors s f).
  - apply in_total_errors_zero in H. apply Hin in H. split; [|exact H].
    apply create_errors; [exact Hv|]. eapply in_not_nil. exact H.
  - apply in_total_errors_mismatch in H. apply Hin in H. split; [|exact H].
    apply create_errors; [exact Hv|]. eapply in_not_nil. exact H.
Qed.

Lemma accounts_whereIn_sub (ids : list Z) (s : store) (x : Z) :
  In x (map acc_id (accounts_whereIn ids s)) -> In x (map acc_id (accounts s)).
Proof.
  unfold accounts_whereIn. rewrite !in_map_iff.
  intros (a & Ha & Hin). apply filter_In in Hin as [Hin _]. eauto.
Qed.

Lemma account_errors_missing (ids : list Z) (s : store) :
  (exists x, In x ids /\ ~ In x (map acc_id (accounts s))) ->
  account_errors ids (map acc_id (accounts_whereIn ids s))
  = [ACCOUNTS_IDS_NOT_FOUND].
Proof.
  intros (x & Hx & Hn). unfold account_errors.
  destruct (list_difference ids _) as [|y l] eqn:E; [|reflexivity].
  assert (Hd : x ∈ list_difference ids (map acc_id (accounts_whereIn ids s))).
  { apply list_elem_of_difference. split.
    - apply list_elem_of_In. exact Hx.
    - intros Hc. apply list_elem_of_In in Hc. apply Hn.
      eapply accounts_whereIn_sub. exact Hc. }
  rewrite E in Hd. inversion Hd.
Qed.

Lemma errors_are_reasons_create (s : store) (f : form) (r : error_reason) :
  In r (makeJournalEntries_errors s f) -> exists t c, r = reason t c.
Proof.
  unfold makeJournalEntries_errors, total_errors, account_errors.
  rewrite !in_app_iff.
  repeat match goal with
         | |- context [if ?c then _ else _] => destruct c
         | |- context [match ?l with [] => _ | _ :: _ => _ end] => destruct l
         end; simpl; intuition (subst; eauto).
Qed.

(** [C5, as amended] When a non-empty line of a create request
    references an account id that is not in the account store, the
    request is answered with status 400 and the error
    ACCOUNTS.IDS.NOT.FOUND, which is in the answer exactly once whatever
    the number of missing ids; the store is unchanged, and every error
    object consists of a type and a code only: the missing ids are not
    part of the answer. *)
Theorem missing_accounts_rejected (s : store) (user : Z) (b : body) (f : form) :
  validation b = Some f ->
  (exists e, In e (List.filter nonEmpty (entries f))
             /\ ~ In (account_id e) (map acc_id (accounts s))) ->
  exists errs,
    create_handler s user b = (s, Errors 400 errs)
    /\ (exists pre post,
          errs = pre ++ ACCOUNTS_IDS_NOT_FOUND :: post
          /\ ~ In ACCOUNTS_IDS_NOT_FOUND pre
          /\ ~ In ACCOUNTS_IDS_NOT_FOUND post)
    /\ forall r, In r errs -> exists t c, r = reason t c.
Proof.
  intros Hv (e & He & Hn). exists (makeJournalEntries_errors s f).
  assert (Hacc : account_errors
                   (map account_id (List.filter nonEmpty (entries f)))
                   (map acc_id
                      (accounts_whereIn
                         (map account_id (List.filter nonEmpty (entries f))) s))
                 = [ACCOUNTS_IDS_NOT_FOUND]).
  { apply account_errors_missing. exists (account_id e).
    split; [|exact Hn]. apply in_map. exact He. }
  assert (Hin : In ACCOUNTS_IDS_NOT_FOUND (makeJournalEntries_errors s f)).
  { unfold makeJournalEntries_errors. apply in_or_app. right.
    apply in_or_app. left. rewrite Hacc. left. reflexivity. }
  split; [|split].
  - apply create_errors; [exact Hv|]. eapply in_not_nil. exact Hin.
  - unfold makeJournalEntries_errors. rewrite Hacc. eexists _, _.
    split; [reflexivity|]. split.
    + unfold total_errors. rewrite in_app_iff.
      repeat match goal with
             | |- context [if ?c then _ else _] => destruct c
             end; simpl; intuition discriminate.
    + destruct (journals_by_number (journal_number f) s); simpl;
        intuition discriminate.
  - intros r. apply errors_are_reasons_create.
Qed.

Lemma journals_by_number_in (n : string) (s : store) (d : ManualJournal) :
  In d (journals_by_number n s)
  <-> In d (manual_journals s) /\ mj_journal_number d = n.
Proof.
  unfold journals_by_number. rewrite filter_In, String.eqb_eq. reflexivity.
Qed.

Lemma other_journal_some (n : string) (id : Z) (s : store) :
  (exists d, In d (manual_journals s) /\ mj_journal_number d = n /\ mj_id d <> id)
  <-> exists d, other_journal_by_number n id s = Some d.
Proof.
  unfold other_journal_by_number. split.
  - intros (d & Hd & Hn & Hi).
    destruct (find _ (manual_journals s)) as [d'|] eqn:E; [eauto|].
    exfalso. eapply find_none in E; [|exact Hd]. simpl in E.
    apply String.eqb_eq in Hn. rewrite Hn in E.
    apply Z.eqb_neq in Hi. rewrite Hi in E. discriminate.
  - intros (d & Hd). apply find_some in Hd as [Hd Hp].
    apply andb_prop in Hp as [Hn Hi]. apply String.eqb_eq in Hn.
    apply negb_true_iff, Z.eqb_neq in Hi. eauto.
Qed.

(** [C6] A create request whose journal number is the journal number of
    a stored document is answered with JOURNAL.NUMBER.ALREADY.EXISTS.
    An edit request gets the same error exactly when a stored document
    other than the edited one has the journal number: the edited
    document's own number does not count. *)
Theorem journal_number_unique (s : store) (user id : Z) (i : field) (b : body)
    (f : form) :
  validation b = Some f ->
  ((exists d, In d (manual_journals s)
              /\ mj_journal_number d = journal_number f) ->
   exists errs, create_handler s user b = (s, Errors 400 errs)
                /\ In JOURNAL_NUMBER_ALREADY_EXISTS errs)
  /\ (numeric_field i = Some id ->
      (exists d0, journal_by_id id s = Some d0) ->
      ((exists d, In d (manual_journals s)
                  /\ mj_journal_number d = journal_number f
                  /\ mj_id d <> id) ->
       exists errs, edit_handler s user i b = (s, Errors 400 errs)
                    /\ In JOURNAL_NUMBER_ALREADY_EXISTS errs)
      /\ ((forall d, In d (manual_journals s) ->
                     mj_journal_number d = journal_number f -> mj_id d = id) ->
          forall s' errs, edit_handler s user i b = (s', Errors 400 errs) ->
                          ~ In JOURNAL_NUMBER_ALREADY_EXISTS errs)).
Proof.
  intros Hv. split.
  - intros (d & Hd & Hn). exists (makeJournalEntries_errors s f).
    assert (Hin : In JOURNAL_NUMBER_ALREADY_EXISTS (makeJournalEntries_errors s f)).
    { unfold makeJournalEntries_errors. apply in_or_app. right.
      apply in_or_app. right.
      destruct (journals_by_number (journal_number f) s) as [|x l] eqn:E.
      - assert (Hx : In d (journals_by_number (journal_number f) s))
          by (apply journals_by_number_in; auto).
        rewrite E in Hx. destruct Hx.
      - left; reflexivity. }
    split; [|exact Hin].
    apply create_errors; [exact Hv|]. eapply in_not_nil. exact Hin.
  - intros Hi (d0 & Hd0). split.
    + intros Hex. apply other_journal_some in Hex as (d & Hd).
      exists (editManualJournal_errors s id f).
      assert (Hin : In JOURNAL_NUMBER_ALREADY_EXISTS (editManualJournal_errors s id f)).
      { unfold editManualJournal_errors. apply in_or_app. right.
        apply in_or_app. left. rewrite Hd. left; reflexivity. }
      split; [|exact Hin].
      eapply edit_errors; eauto. eapply in_not_nil. exact Hin.
    + intros Hown s' errs Hr Hin.
      assert (Hnone : other_journal_by_number (journal_number f) id s = None).
      { destruct (other_journal_by_number (journal_number f) id s) eqn:E;
          [|reflexivity].
        assert (Hex : exists d, other_journal_by_number (journal_number f) id s
                                = Some d) by eauto.
        apply other_journal_some in Hex as (d & Hd & Hn & Hne).
        exfalso. apply Hne. apply Hown; assumption. }
      destruct (editManualJournal_errors s id f) as [|r l] eqn:E.
      * revert Hr. unfold editManualJournal_handler, editManualJournal_validation.
        rewrite Hi, Hv. simpl. rewrite Hd0.
        unfold editManualJournal_errors in E.
        destruct (totals (List.filter nonEmpty (entries f))) as [tc td].
        simpl in E. rewrite E.
        destruct (fails DocumentWrite); [discriminate|].
        unfold commit. cbn [existsb fst snd].
        destruct (fails EntriesWrite), (fails BalanceWrite); discriminate.
      * erewrite edit_errors in Hr; eauto; [|rewrite E; discriminate].
        injection Hr as _ <-. revert Hin.
        unfold editManualJournal_errors, total_errors, account_errors.
        rewrite Hnone. rewrite !in_app_iff.
        repeat match goal with
               | |- context [if ?c then _ else _] => destruct c
               | |- context [match ?l with [] => _ | _ :: _ => _ end] => destruct l
               end; simpl; intuition discriminate.
Qed.

Lemma journal_by_id_id (id : Z) (s : store) (d : ManualJournal) :
  journal_by_id id s = Some d -> In d (manual_journals s) /\ mj_id d = id.
Proof.
  unfold journal_by_id. intros H. apply find_some in H as [Hin Hid].
  apply Z.eqb_eq in Hid. auto.
Qed.

Lemma find_after_delete (id : Z) (l : list ManualJournal) :
  find (fun d => mj_id d =? id) (List.filter (fun d => negb (mj_id d =? id)) l)
  = None.
Proof.
  induction l as [|d l IH]; [reflexivity|]. simpl.
  destruct (mj_id d =? id) eqn:E; simpl; [exact IH|]. rewrite E. exact IH.
Qed.

Lemma saveEntries_manual_journals (p : JournalPoster.t) (s : store) :
  manual_journals (JournalPoster.saveEntries p s) = manual_journals s.
Proof.
  unfold JournalPoster.saveEntries.
  generalize (map snd (JournalPoster.entries p)). intros l. revert s.
  induction l as [|e l IH]; intros s; [reflexivity|]. simpl. rewrite IH. reflexivity.
Qed.

(** [C7] A delete whose id resolves to no stored document is answered
    with MANUAL.JOURNAL.NOT.FOUND (status 404) and changes nothing, and
    after a successful delete the same delete is answered so and leaves
    the store, hence every balance, as the first delete left it.  The
    edit of a missing document builds the same error but sends it with
    status 4040: the send throws [RangeError], so the caller gets no
    MANUAL.JOURNAL.NOT.FOUND; the store is unchanged. *)
Theorem missing_document_not_found (s : store) (user id : Z) (i : field)
    (b : body) (f : form) :
  numeric_field i = Some id ->
  (validation b = Some f -> journal_by_id id s = None ->
   edit_handler s user i b = (s, Throw RangeError))
  /\ (journal_by_id id s = None ->
      delete_handler s i = (s, Errors 404 [MANUAL_JOURNAL_NOT_FOUND]))
  /\ (forall s1 r fails2,
        delete_handler s i = (s1, Ok r) ->
        deleteManualJournal_handler fails2 s1 i
        = (s1, Errors 404 [MANUAL_JOURNAL_NOT_FOUND])).
Proof.
  intros Hi. repeat split.
  - intros Hv Hn. unfold editManualJournal_handler, editManualJournal_validation.
    rewrite Hi, Hv. simpl. rewrite Hn. reflexivity.
  - intros Hn. unfold deleteManualJournal_handler, deleteManualJournal_validation.
    rewrite Hi, Hn. reflexivity.
  - intros s1 r fails2.
    unfold deleteManualJournal_handler, deleteManualJournal_validation.
    rewrite Hi. destruct (journal_by_id id s) as [d|] eqn:Hd; [|discriminate].
    apply journal_by_id_id in Hd as [_ Hd].
    destruct (fails DocumentWrite); [discriminate|].
    unfold commit. cbn [existsb fst snd fold_left].
    destruct (fails EntriesWrite), (fails BalanceWrite); simpl;
      try discriminate.
    intros H. injection H as <- _.
    assert (Hnone : forall p q,
      journal_by_id id
        (JournalPoster.saveBalance q
           (JournalPoster.deleteEntries p
              (set_manual_journals
                 (List.filter (fun d0 => negb (mj_id d0 =? mj_id d))) s)))
      = None).
    { intros p q. unfold journal_by_id. simpl. rewrite Hd.
      apply find_after_delete. }
    rewrite Hnone. reflexivity.
Qed.



(** A line whose amounts are absent or zero does not survive the filter. *)
Lemma empty_line_filtered (e : entry) (l1 l2 : list entry) :
  nonEmpty e = false ->
  List.filter nonEmpty (l1 ++ e :: l2) = List.filter nonEmpty (l1 ++ l2).
Proof.
  intros H. rewrite !List.filter_app. simpl. rewrite H. reflexivity.
Qed.

(** *** What the handlers do once every check has passed *)

Lemma create_run (s : store) (user : Z) (b : body) (f : form) :
  validation b = Some f ->
  makeJournalEntries_errors s f = [] ->
  create_handler s user b =
  if fails DocumentWrite then (s, Throw PersistenceError)
  else
    let s1 := insert_journal (create_document format_date s user f) s in
    match create_poster format_date s user f with
    | inl x => (s1, Throw x)
    | inr p =>
        if fails EntriesWrite || fails BalanceWrite
        then ((commit fails
                 [(EntriesWrite, JournalPoster.saveEntries p);
                  (BalanceWrite, JournalPoster.saveBalance p)] s1).1,
              Throw PersistenceError)
        else (JournalPoster.saveBalance p (JournalPoster.saveEntries p s1),
              Ok (Some (next_journal_id s)))
    end.
Proof.
  intros Hv He. unfold makeJournalEntries_handler, makeJournalEntries_validation.
  rewrite Hv. unfold makeJournalEntries_errors in He.
  unfold create_poster, create_document.
  destruct (totals (List.filter nonEmpty (entries f))) as [tc td]. simpl in *.
  rewrite He. destruct (fails DocumentWrite); [reflexivity|].
  match goal with |- context [fold_left ?g ?l ?a] => destruct (fold_left g l a) end;
    [reflexivity|].
  unfold commit. cbn [existsb fst snd fold_left].
  destruct (fails EntriesWrite), (fails BalanceWrite); reflexivity.
Qed.

Lemma edit_run (s : store) (user id : Z) (i : field) (b : body) (f : form)
    (d : ManualJournal) :
  numeric_field i = Some id ->
  validation b = Some f ->
  journal_by_id id s = Some d ->
  editManualJournal_errors s id f = [] ->
  edit_handler s user i b =
  if fails DocumentWrite then (s, Throw PersistenceError)
  else
    let s1 := edit_document format_date s id f in
    let p := removal ["Journal"%string] id s1 in
    if fails EntriesWrite || fails BalanceWrite
    then ((commit fails
             [(EntriesWrite, JournalPoster.deleteEntries p);
              (EntriesWrite, JournalPoster.saveEntries p);
              (BalanceWrite, JournalPoster.saveBalance p)] s1).1,
          Throw PersistenceError)
    else (JournalPoster.saveBalance p
            (JournalPoster.saveEntries p (JournalPoster.deleteEntries p s1)),
          Ok None).
Proof.
  intros Hi Hv Hd He. unfold editManualJournal_handler, editManualJournal_validation.
  rewrite Hi, Hv. simpl. rewrite Hd. apply journal_by_id_id in Hd as [_ ->].
  unfold editManualJournal_errors in He. unfold edit_document, removal.
  destruct (totals (List.filter nonEmpty (entries f))) as [tc td]. simpl in *.
  rewrite He. destruct (fails DocumentWrite); [reflexivity|].
  unfold commit. cbn [existsb fst snd fold_left].
  destruct (fails EntriesWrite), (fails BalanceWrite); reflexivity.
Qed.

Lemma delete_run (s : store) (id : Z) (i : field) (d : ManualJournal) :
  numeric_field i = Some id ->
  journal_by_id id s = Some d ->
  delete_handler s i =
  if fails DocumentWrite then (s, Throw PersistenceError)
  else
    let s1 := delete_document s id in
    let p := removal ["Journal"%string; "ManualJournal"%string] id s in
    if fails EntriesWrite || fails BalanceWrite
    then ((commit fails
             [(EntriesWrite, JournalPoster.deleteEntries p);
              (BalanceWrite, JournalPoster.saveBalance p)] s1).1,
          Throw PersistenceError)
    else (JournalPoster.saveBalance p (JournalPoster.deleteEntries p s1),
          Ok (Some id)).
Proof.
  intros Hi Hd. unfold deleteManualJournal_handler, deleteManualJournal_validation.
  rewrite Hi, Hd. apply journal_by_id_id in Hd as [_ ->].
  unfold delete_document, removal.
  destruct (fails DocumentWrite); [reflexivity|].
  unfold commit. cbn [existsb fst snd fold_left].
  destruct (fails EntriesWrite), (fails BalanceWrite); reflexivity.
Qed.

(** *** Balances after [saveBalance] *)

Lemma fold_apply_change (cs : list (Z * Z)) (b : gmap Z Z) (a : Z) :
  default 0 (fold_left JournalPoster.apply_change cs b !! a)
  = default 0 (b !! a) + change_on a cs.
Proof.
  revert b. induction cs as [|c cs IH]; intros b; simpl; [lia|].
  rewrite IH. unfold JournalPoster.apply_change.
  destruct (Z.eqb_spec c.1 a) as [->|Hne].
  - rewrite lookup_insert_eq. simpl. lia.
  - rewrite lookup_insert_ne by exact Hne. lia.
Qed.

Lemma balance_saveBalance (p : JournalPoster.t) (s : store) (a : Z) :
  balance (JournalPoster.saveBalance p s) a
  = balance s a + change_on a (JournalPoster.balancesChange p).
Proof. unfold balance. simpl. apply fold_apply_change. Qed.

Lemma change_on_cons (a : Z) (c : Z * Z) (cs : list (Z * Z)) :
  change_on a (c :: cs) = (if c.1 =? a then c.2 else 0) + change_on a cs.
Proof. reflexivity. Qed.

Lemma effect_on_cons (a : Z) (t : JournalPoster.loaded_entry)
    (ts : list JournalPoster.loaded_entry) :
  effect_on a (t :: ts)
  = (if tr_account t.1 =? a then loaded_delta t else 0) + effect_on a ts.
Proof. reflexivity. Qed.

Lemma change_on_removed (a : Z) (ts : list JournalPoster.loaded_entry) :
  change_on a
    (omap (fun '(t, n) =>
             match n with
             | Some n => Some (tr_account t,
                               - JournalPoster.delta n (tr_debit t) (tr_credit t))
             | None => None
             end) ts)
  = - effect_on a ts.
Proof.
  induction ts as [|[t [n|]] ts IH]; [reflexivity| |].
  - cbn [omap list_omap]. rewrite change_on_cons, effect_on_cons, IH.
    unfold loaded_delta. simpl. destruct (tr_account t =? a); lia.
  - cbn [omap list_omap]. rewrite effect_on_cons, IH.
    unfold loaded_delta. simpl. destruct (tr_account t =? a); lia.
Qed.

Lemma change_on_removal (types : list string) (id a : Z) (s : store) :
  change_on a (JournalPoster.balancesChange (removal types id s))
  = - effect_on a (transactions_of types id s).
Proof. unfold removal, JournalPoster.balancesChange. simpl. apply change_on_removed. Qed.

Lemma filter_all {A : Type} (l : list A) : List.filter (fun _ => true) l = l.
Proof. induction l as [|x l IH]; simpl; [reflexivity|]. rewrite IH. reflexivity. Qed.

Lemma existsb_string_eqb (x : string) (l : list string) :
  existsb (String.eqb x) l = true <-> In x l.
Proof.
  rewrite existsb_exists. split.
  - intros (y & Hy & He). apply String.eqb_eq in He. subst. exact Hy.
  - intros H. exists x. split; [exact H|apply String.eqb_refl].
Qed.






(** *** Staging the entries of a create request *)

Lemma stage_thrown (accs : list Account) (fd : string) (user : Z)
    (m : ManualJournal) (es : list entry) (x : exception) :
  fold_left (stage_entry accs fd user m) es (inl x) = inl x.
Proof. induction es as [|e es IH]; [reflexivity|exact IH]. Qed.

Lemma stage_invalid (accs : list Account) (fd : string) (user : Z)
    (m : ManualJournal) (es : list entry) (p : JournalPoster.t) :
  (forall e, In e es ->
     exists a, find (fun a => acc_id a =? account_id e) accs = Some a) ->
  (exists e, In e es /\ JournalEntry.valid (debit e) (credit e) = false) ->
  fold_left (stage_entry accs fd user m) es (inr p) = inl InvalidEntryError.
Proof.
  revert p. induction es as [|e es IH]; intros p Hfind (e0 & Hin & Hbad).
  - destruct Hin.
  - simpl. destruct (Hfind e (or_introl eq_refl)) as (a & Ha). rewrite Ha.
    unfold JournalEntry.new. simpl.
    destruct (JournalEntry.valid (debit e) (credit e)) eqn:Hval.
    + destruct Hin as [<-|Hin]; [congruence|].
      destruct (truthy (debit e)); apply IH; eauto; intros; apply Hfind; right;
        assumption.
    + apply stage_thrown.
Qed.

Lemma account_errors_nil (ids : list Z) (s : store) (x : Z) :
  account_errors ids (map acc_id (accounts_whereIn ids s)) = [] ->
  In x ids ->
  exists a, find (fun a => acc_id a =? x) (accounts_whereIn ids s) = Some a.
Proof.
  unfold account_errors. intros H Hx.
  destruct (list_difference ids _) as [|y l] eqn:E; [|discriminate].
  destruct (find _ (accounts_whereIn ids s)) as [a|] eqn:Hf; [eauto|].
  exfalso.
  assert (Hd : x ∈ list_difference ids (map acc_id (accounts_whereIn ids s))).
  { apply list_elem_of_difference. split; [apply list_elem_of_In; exact Hx|].
    intros Hc. apply list_elem_of_In, in_map_iff in Hc as (a & Ha & Hin).
    eapply find_none in Hf; [|exact Hin]. simpl in Hf.
    apply Z.eqb_neq in Hf. contradiction. }
  rewrite E in Hd. inversion Hd.
Qed.

Lemma named_lines_invalid (e : entry) :
  both_set e \/ non_positive_set e ->
  JournalEntry.valid (debit e) (credit e) = false.
Proof.
  unfold both_set, non_positive_set, JournalEntry.valid.
  intros [[[d Hd] [c Hc]]|[(n & Hn & Hle)|(n & Hn & Hle)]].
  - rewrite Hd, Hc. reflexivity.
  - rewrite Hn. destruct (credit e); [reflexivity|]. apply Z.ltb_ge. exact Hle.
  - rewrite Hn. destruct (debit e); [reflexivity|]. apply Z.ltb_ge. exact Hle.
Qed.

(** [C4, as amended] A line that keeps a non-zero amount (so the filter
    does not drop it) and has both its debit and its credit set, or a
    set amount that is zero or negative, is never posted: no entry is
    written and no balance changes.  The request is answered with the
    400 errors of the totals, accounts and journal-number checks when
    one of them fails (or fails on the document write), and otherwise
    the line is rejected with [InvalidEntryError] when its
    [JournalEntry] is built, after the document was inserted. *)
Theorem invalid_line_never_posted (s : store) (user : Z) (b : body) (f : form)
    (e : entry) :
  validation b = Some f ->
  In e (entries f) ->
  nonEmpty e = true ->
  both_set e \/ non_positive_set e ->
  exists s' r,
    create_handler s user b = (s', r)
    /\ account_transactions s' = account_transactions s
    /\ account_balances s' = account_balances s
    /\ ((exists errs, r = Errors 400 errs /\ errs <> [] /\ s' = s)
        \/ (r = Throw PersistenceError /\ s' = s)
        \/ (r = Throw InvalidEntryError
            /\ s' = insert_journal (create_document format_date s user f) s)).
Proof.
  intros Hv Hin Hne Hbad. apply named_lines_invalid in Hbad.
  destruct (makeJournalEntries_errors s f) as [|r0 errs] eqn:He.
  - rewrite (create_run s user b f Hv He).
    destruct (fails DocumentWrite).
    + exists s, (Throw PersistenceError). repeat split. right. left. auto.
    + assert (Hp : create_poster format_date s user f = inl InvalidEntryError).
      { unfold create_poster. apply stage_invalid.
        - intros e' He'. apply account_errors_nil; [|apply in_map; exact He'].
          unfold makeJournalEntries_errors in He.
          apply app_eq_nil in He as [_ He]. apply app_eq_nil in He as [He _].
          exact He.
        - exists e. split; [|exact Hbad]. apply filter_In. auto. }
      simpl. rewrite Hp. eexists _, _. split; [reflexivity|].
      repeat split. right. right. auto.
  - exists s, (Errors 400 (makeJournalEntries_errors s f)).
    split; [apply create_errors; [exact Hv|rewrite He; discriminate]|].
    repeat split. left. eexists. split; [reflexivity|].
    split; [rewrite He; discriminate|reflexivity].
Qed.

(** A successful edit writes no entry: every entry in the store after it
    was there before.  The lines of the request are validated and then
    left out of the poster. *)
Lemma edit_writes_no_entry (s s' : store) (user id : Z) (i : field) (b : body)
    (f : form) (d : ManualJournal) :
  numeric_field i = Some id ->
  validation b = Some f ->
  journal_by_id id s = Some d ->
  edit_handler s user i b = (s', Ok None) ->
  forall t, In t (account_transactions s') -> In t (account_transactions s).
Proof.
  intros Hi Hv Hd Hr t.
  destruct (editManualJournal_errors s id f) as [|r l] eqn:He.
  - rewrite (edit_run s user id i b f d Hi Hv Hd He) in Hr.
    destruct (fails DocumentWrite); [discriminate|]. simpl in Hr.
    destruct (fails EntriesWrite || fails BalanceWrite); [discriminate|].
    injection Hr as <-. simpl. intros Ht. apply filter_In in Ht as [Ht _].
    exact Ht.
  - erewrite edit_errors in Hr; eauto; [discriminate|].
    rewrite He. discriminate.
Qed.

(** ** Further properties of the handlers *)

(** *** The outcomes of a call *)

Lemma create_cases (s s' : store) (user : Z) (b : body) (r : response) :
  create_handler s user b = (s', r) ->
  (s' = s
   /\ (r = BadData \/ r = Throw PersistenceError
       \/ exists f, validation b = Some f
                    /\ makeJournalEntries_errors s f <> []
                    /\ r = Errors 400 (makeJournalEntries_errors s f)))
  \/ exists f,
       validation b = Some f
       /\ makeJournalEntries_errors s f = []
       /\ fails DocumentWrite = false
       /\ ((manual_journals s'
             = manual_journals s ++ [create_document format_date s user f]
            /\ exists x, r = Throw x)
           \/ exists p,
                create_poster format_date s user f = inr p
                /\ fails EntriesWrite || fails BalanceWrite = false
                /\ s' = JournalPoster.saveBalance p
                          (JournalPoster.saveEntries p
                             (insert_journal
                                (create_document format_date s user f) s))
                /\ r = Ok (Some (next_journal_id s))).
Proof.
  intros H. destruct (validation b) as [f|] eqn:Hv.
  - destruct (makeJournalEntries_errors s f) as [|e0 errs] eqn:He.
    + rewrite (create_run s user b f Hv He) in H.
      destruct (fails DocumentWrite) eqn:Hf.
      * injection H as <- <-. left. auto.
      * right. exists f. repeat split; try assumption. cbv zeta in H.
        destruct (create_poster format_date s user f) as [x|p] eqn:Hp.
        -- injection H as <- <-. left. split; [reflexivity|eauto].
        -- destruct (fails EntriesWrite || fails BalanceWrite) eqn:Hc.
           ++ injection H as <- <-. left. split; [|eauto].
              destruct (fails BalanceWrite), (fails EntriesWrite);
                cbn [manual_journals JournalPoster.saveBalance
                     JournalPoster.deleteEntries set_account_balances
                     set_account_transactions];
                rewrite ?saveEntries_manual_journals; reflexivity.
           ++ injection H as <- <-. right. exists p. auto.
    + rewrite (create_errors s user b f Hv) in H by (rewrite He; discriminate).
      injection H as <- <-. left. split; [reflexivity|]. right. right.
      exists f. rewrite He.
      split; [first [assumption|reflexivity]|split; [discriminate|reflexivity]].
  - unfold makeJournalEntries_handler, makeJournalEntries_validation in H.
    rewrite Hv in H. injection H as <- <-. left. auto.
Qed.

Lemma edit_cases (s s' : store) (user : Z) (i : field) (b : body) (r : response) :
  edit_handler s user i b = (s', r) ->
  (s' = s
   /\ (r = BadData \/ r = Throw PersistenceError
       \/ r = Throw RangeError
       \/ exists id f, numeric_field i = Some id /\ validation b = Some f
                       /\ editManualJournal_errors s id f <> []
                       /\ r = Errors 400 (editManualJournal_errors s id f)))
  \/ exists id f d,
       numeric_field i = Some id
       /\ validation b = Some f
       /\ journal_by_id id s = Some d
       /\ editManualJournal_errors s id f = []
       /\ fails DocumentWrite = false
       /\ ((manual_journals s'
             = manual_journals (edit_document format_date s id f)
            /\ r = Throw PersistenceError)
           \/ (fails EntriesWrite || fails BalanceWrite = false
               /\ s' = JournalPoster.saveBalance
                         (removal ["Journal"%string] id
                            (edit_document format_date s id f))
                         (JournalPoster.saveEntries
                            (removal ["Journal"%string] id
                               (edit_document format_date s id f))
                            (JournalPoster.deleteEntries
                               (removal ["Journal"%string] id
                                  (edit_document format_date s id f))
                               (edit_document format_date s id f)))
               /\ r = Ok None)).
Proof.
  intros H.
  destruct (numeric_field i) as [id|] eqn:Hi;
    [destruct (validation b) as [f|] eqn:Hv|].
  - destruct (journal_by_id id s) as [d|] eqn:Hd.
    + destruct (editManualJournal_errors s id f) as [|e0 errs] eqn:He.
      * rewrite (edit_run s user id i b f d Hi Hv Hd He) in H.
        destruct (fails DocumentWrite) eqn:Hf.
        -- injection H as <- <-. left. auto.
        -- right. exists id, f, d. repeat split; try assumption. cbv zeta in H.
           destruct (fails EntriesWrite || fails BalanceWrite) eqn:Hc.
           ++ injection H as <- <-. left. split; [|reflexivity].
              destruct (fails BalanceWrite), (fails EntriesWrite);
                cbn [manual_journals JournalPoster.saveBalance
                     JournalPoster.deleteEntries set_account_balances
                     set_account_transactions];
                rewrite ?saveEntries_manual_journals; reflexivity.
           ++ injection H as <- <-. right. auto.
      * rewrite (edit_errors s user id i b f d Hi Hv Hd) in H
          by (rewrite He; discriminate).
        injection H as <- <-. left. split; [reflexivity|]. right. right. right.
        exists id, f. rewrite He.
        split; [first [assumption|reflexivity]|].
        split; [first [assumption|reflexivity]|].
        split; [discriminate|reflexivity].
    + unfold editManualJournal_handler, editManualJournal_validation in H.
      rewrite Hi, Hv in H. simpl in H. rewrite Hd in H.
      injection H as <- <-. left. auto.
  - unfold editManualJournal_handler, editManualJournal_validation in H.
    rewrite Hi, Hv in H. injection H as <- <-. left. auto.
  - unfold editManualJournal_handler, editManualJournal_validation in H.
    rewrite Hi in H. injection H as <- <-. left. auto.
Qed.

Lemma delete_cases (s s' : store) (i : field) (r : response) :
  delete_handler s i = (s', r) ->
  (s' = s
   /\ (r = BadData \/ r = Throw PersistenceError
       \/ r = Errors 404 [MANUAL_JOURNAL_NOT_FOUND]))
  \/ exists id d,
       numeric_field i = Some id
       /\ journal_by_id id s = Some d
       /\ fails DocumentWrite = false
       /\ ((manual_journals s' = manual_journals (delete_document s id)
            /\ r = Throw PersistenceError)
           \/ (fails EntriesWrite || fails BalanceWrite = false
               /\ s' = JournalPoster.saveBalance
                         (removal ["Journal"%string; "ManualJournal"%string] id s)
                         (JournalPoster.deleteEntries
                            (removal ["Journal"%string; "ManualJournal"%string]
                               id s)
                            (delete_document s id))
               /\ r = Ok (Some id))).
Proof.
  intros H. destruct (numeric_field i) as [id|] eqn:Hi.
  - destruct (journal_by_id id s) as [d|] eqn:Hd.
    + rewrite (delete_run s id i d Hi Hd) in H.
      destruct (fails DocumentWrite) eqn:Hf.
      * injection H as <- <-. left. auto.
      * right. exists id, d. repeat split; try assumption. cbv zeta in H.
        destruct (fails EntriesWrite || fails BalanceWrite) eqn:Hc.
        -- injection H as <- <-. left. split; [|reflexivity].
           destruct (fails BalanceWrite), (fails EntriesWrite);
                cbn [manual_journals JournalPoster.saveBalance
                     JournalPoster.deleteEntries set_account_balances
                     set_account_transactions];
                rewrite ?saveEntries_manual_journals; reflexivity.
        -- injection H as <- <-. right. auto.
    + unfold deleteManualJournal_handler, deleteManualJournal_validation in H.
      rewrite Hi, Hd in H. injection H as <- <-. left. auto.
  - unfold deleteManualJournal_handler, deleteManualJournal_validation in H.
    rewrite Hi in H. injection H as <- <-. left. auto.
Qed.

(** [X1] Whenever create, edit or delete answers with the validation
    error or with a list of errors, the store is exactly the one before
    the call: every check runs before the first write. *)
Theorem error_answers_change_nothing (s s' : store) (user : Z) (i : field)
    (b : body) (r : response) :
  create_handler s user b = (s', r)
  \/ edit_handler s user i b = (s', r)
  \/ delete_handler s i = (s', r) ->
  r = BadData \/ (exists status errs, r = Errors status errs) ->
  s' = s.
Proof.
  intros [H|[H|H]] Hr.
  - apply create_cases in H as [[-> _]|(f & _ & _ & _ & H)]; [reflexivity|].
    destruct H as [[_ [x ->]]|(p & _ & _ & _ & ->)];
      destruct Hr as [Hr|(st & errs & Hr)]; discriminate.
  - apply edit_cases in H as [[-> _]|(id & f & d & _ & _ & _ & _ & _ & H)];
      [reflexivity|].
    destruct H as [[_ ->]|(_ & _ & ->)];
      destruct Hr as [Hr|(st & errs & Hr)]; discriminate.
  - apply delete_cases in H as [[-> _]|(id & d & _ & _ & _ & H)];
      [reflexivity|].
    destruct H as [[_ ->]|(_ & _ & ->)];
      destruct Hr as [Hr|(st & errs & Hr)]; discriminate.
Qed.

(** *** The totals *)

Lemma round53_pos (z : Z) : 1 <= z -> 1 <= round53 z.
Proof.
  intros Hz. unfold round53. rewrite (Z.abs_eq z) by lia.
  destruct (z <? 2 ^ 53) eqn:E; [exact Hz|]. apply Z.ltb_ge in E.
  rewrite (Z.sgn_pos z) by lia.
  assert (H53 : 53 <= Z.log2 z).
  { rewrite <- (Z.log2_pow2 53) by lia. apply Z.log2_le_mono. exact E. }
  assert (Hq : 0 < 2 ^ (Z.log2 z - 52)) by (apply Z.pow_pos_nonneg; lia).
  assert (Hle : 2 ^ (Z.log2 z - 52) <= z).
  { transitivity (2 ^ Z.log2 z); [apply Z.pow_le_mono_r; lia|].
    apply Z.log2_spec. lia. }
  assert (Hd : 0 < z / 2 ^ (Z.log2 z - 52)) by (apply Z.div_str_pos; lia).
  cbv zeta.
  destruct (2 * (z mod 2 ^ (Z.log2 z - 52)) <? 2 ^ (Z.log2 z - 52));
    [|destruct (2 ^ (Z.log2 z - 52) <? 2 * (z mod 2 ^ (Z.log2 z - 52)));
      [|destruct (Z.even (z / 2 ^ (Z.log2 z - 52)))]]; nia.
Qed.

Lemma js_add_pos (a b : Z) : 0 <= a -> 0 < b -> 0 < js_add a b.
Proof.
  intros Ha Hb. unfold js_add.
  pose proof (round53_pos (a + b)) as Hr.
  assert (Hi : 0 < INFINITY) by (apply Z.pow_pos_nonneg; lia).
  destruct (INFINITY <=? round53 (a + b)); [exact Hi|].
  destruct (round53 (a + b) <=? - INFINITY) eqn:E; [|lia].
  apply Z.leb_le in E. lia.
Qed.

Lemma add_line_grows (e : entry) (c d : Z) :
  0 <= c -> 0 <= d ->
  0 <= (add_line (c, d) e).1
  /\ 0 <= (add_line (c, d) e).2
  /\ ((add_line (c, d) e).1 <= 0 <-> c <= 0 /\ gt0 (credit e) = false)
  /\ ((add_line (c, d) e).2 <= 0 <-> d <= 0 /\ gt0 (debit e) = false).
Proof.
  intros Hc Hd. unfold add_line. cbn [fst snd].
  assert (Hpos : forall x, gt0 x = true -> 0 < default 0 x)
    by (intros [n|]; simpl; [apply Z.ltb_lt|discriminate]).
  pose proof (Hpos (credit e)) as Pc. pose proof (Hpos (debit e)) as Pd.
  destruct (gt0 (credit e)); destruct (gt0 (debit e));
    try (pose proof (js_add_pos c (default 0 (credit e)) Hc (Pc eq_refl)));
    try (pose proof (js_add_pos d (default 0 (debit e)) Hd (Pd eq_refl)));
    repeat split; intros; try lia; try tauto;
    try (destruct H as [_ H]; discriminate);
    try (destruct H0 as [_ H0]; discriminate);
    try (destruct H1 as [_ H1]; discriminate).
Qed.

Lemma totals_from (es : list entry) (c d : Z) :
  0 <= c -> 0 <= d ->
  0 <= (fold_left add_line es (c, d)).1
  /\ 0 <= (fold_left add_line es (c, d)).2
  /\ ((fold_left add_line es (c, d)).1 <= 0
      <-> c <= 0 /\ Forall (fun e => gt0 (credit e) = false) es)
  /\ ((fold_left add_line es (c, d)).2 <= 0
      <-> d <= 0 /\ Forall (fun e => gt0 (debit e) = false) es).
Proof.
  revert c d. induction es as [|e es IH]; intros c d Hc Hd.
  - simpl. repeat split; try lia; try tauto; constructor.
  - cbn [fold_left].
    destruct (add_line_grows e c d Hc Hd) as (G1 & G2 & G3 & G4).
    destruct (add_line (c, d) e) as [c' d']. cbn [fst snd] in *.
    destruct (IH c' d' G1 G2) as (I1 & I2 & I3 & I4).
    split; [exact I1|]. split; [exact I2|]. split.
    + rewrite I3, G3. split.
      * intros [[H1 H2] H3]. split; [exact H1|]. constructor; assumption.
      * intros [H1 H2]. inversion H2; subst. tauto.
    + rewrite I4, G4. split.
      * intros [[H1 H2] H3]. split; [exact H1|]. constructor; assumption.
      * intros [H1 H2]. inversion H2; subst. tauto.
Qed.

Lemma totals_add_line (es : list entry) :
  totals es = fold_left add_line es (0, 0).
Proof.
  unfold totals. generalize (0, 0).
  induction es as [|e es IH]; intros t; [reflexivity|]. cbn [fold_left].
  rewrite <- IH. destruct t as [c d]. reflexivity.
Qed.

Lemma gt0_pos (x : option Z) : gt0 x = true -> 0 < default 0 x.
Proof. destruct x as [n|]; simpl; [apply Z.ltb_lt|discriminate]. Qed.

Lemma empty_line_adds_nothing (e : entry) :
  nonEmpty e = false -> gt0 (credit e) = false /\ gt0 (debit e) = false.
Proof.
  unfold nonEmpty, truthy, gt0.
  destruct (credit e) as [c|], (debit e) as [d|]; simpl;
    rewrite ?orb_false_iff, ?negb_false_iff, ?Z.eqb_eq;
    intuition (subst; reflexivity).
Qed.

Lemma totals_filter (es : list entry) (t : Z * Z) :
  fold_left add_line (List.filter nonEmpty es) t = fold_left add_line es t.
Proof.
  revert t. induction es as [|e es IH]; intros t; [reflexivity|].
  cbn [List.filter]. destruct (nonEmpty e) eqn:E; cbn [fold_left].
  - apply IH.
  - rewrite IH. f_equal. apply empty_line_adds_nothing in E as [Ec Ed].
    destruct t as [c d]. unfold add_line. rewrite Ec, Ed. reflexivity.
Qed.

(** [X2] The totals only add amounts above zero: they are never
    negative, a total is zero exactly when no line has a positive amount
    on that side (a negative amount offsets nothing), and the lines the
    filter drops add nothing to them. *)
Theorem totals_of_positive_amounts (es : list entry) :
  0 <= (totals es).1
  /\ 0 <= (totals es).2
  /\ ((totals es).1 <= 0 <-> Forall (fun e => gt0 (credit e) = false) es)
  /\ ((totals es).2 <= 0 <-> Forall (fun e => gt0 (debit e) = false) es)
  /\ totals (List.filter nonEmpty es) = totals es.
Proof.
  rewrite !totals_add_line.
  destruct (totals_from es 0 0 (Z.le_refl 0) (Z.le_refl 0))
    as (H1 & H2 & H3 & H4).
  split; [exact H1|]. split; [exact H2|].
  split; [rewrite H3; intuition lia|]. split; [rewrite H4; intuition lia|].
  apply totals_filter.
Qed.

(** *** The list of errors of a create *)

Lemma total_errors_nil (tc td : Z) :
  total_errors tc td = [] <-> 0 < tc /\ 0 < td /\ tc = td.
Proof.
  unfold total_errors.
  destruct (tc <=? 0) eqn:E1; destruct (td <=? 0) eqn:E2;
    destruct (tc =? td) eqn:E3; simpl;
    rewrite ?Z.leb_le, ?Z.leb_gt, ?Z.eqb_eq, ?Z.eqb_neq in *;
    split; intros H; try discriminate; try lia; reflexivity.
Qed.

Lemma in_total_errors (tc td : Z) (r : error_reason) :
  In r (total_errors tc td)
  <-> (r = SUMATION_ZERO /\ (tc <= 0 \/ td <= 0))
      \/ (r = NOT_EQUALS /\ tc <> td).
Proof.
  unfold total_errors.
  destruct (tc <=? 0) eqn:E1; destruct (td <=? 0) eqn:E2;
    destruct (tc =? td) eqn:E3; simpl;
    rewrite ?Z.leb_le, ?Z.leb_gt, ?Z.eqb_eq, ?Z.eqb_neq in *;
    split; intros H; intuition (try lia; auto).
Qed.

Lemma accounts_whereIn_in (ids : list Z) (s : store) (x : Z) :
  In x ids -> In x (map acc_id (accounts s)) ->
  In x (map acc_id (accounts_whereIn ids s)).
Proof.
  unfold accounts_whereIn. rewrite !in_map_iff.
  intros Hx (a & <- & Ha). exists a. split; [reflexivity|].
  apply filter_In. split; [exact Ha|].
  apply existsb_exists. exists (acc_id a). split; [exact Hx|apply Z.eqb_refl].
Qed.

Lemma in_account_errors (ids : list Z) (s : store) (r : error_reason) :
  In r (account_errors ids (map acc_id (accounts_whereIn ids s)))
  <-> r = ACCOUNTS_IDS_NOT_FOUND
      /\ exists x, In x ids /\ ~ In x (map acc_id (accounts s)).
Proof.
  split.
  - unfold account_errors.
    destruct (list_difference ids _) as [|y l] eqn:E; [intros []|].
    intros [<-|[]]. split; [reflexivity|].
    assert (Hy : y ∈ list_difference ids
                       (map acc_id (accounts_whereIn ids s)))
      by (rewrite E; left).
    apply list_elem_of_difference in Hy as [Hy Hn]. exists y.
    split; [apply list_elem_of_In; exact Hy|].
    intros Hc. apply Hn. apply list_elem_of_In.
    apply accounts_whereIn_in; [apply list_elem_of_In; exact Hy|exact Hc].
  - intros [-> Hx]. rewrite (account_errors_missing ids s Hx). left. reflexivity.
Qed.

Lemma in_create_errors (s : store) (f : form) (r : error_reason) :
  let es := List.filter nonEmpty (entries f) in
  In r (makeJournalEntries_errors s f)
  <-> (r = SUMATION_ZERO /\ ((totals es).1 <= 0 \/ (totals es).2 <= 0))
      \/ (r = NOT_EQUALS /\ (totals es).1 <> (totals es).2)
      \/ (r = ACCOUNTS_IDS_NOT_FOUND
          /\ exists e, In e es /\ ~ In (account_id e) (map acc_id (accounts s)))
      \/ (r = JOURNAL_NUMBER_ALREADY_EXISTS
          /\ exists d, In d (manual_journals s)
                       /\ mj_journal_number d = journal_number f).
Proof.
  intros es. unfold makeJournalEntries_errors. fold es.
  rewrite !in_app_iff, in_total_errors, in_account_errors.
  assert (Hacc : (exists x, In x (map account_id es)
                            /\ ~ In x (map acc_id (accounts s)))
                 <-> exists e, In e es
                               /\ ~ In (account_id e) (map acc_id (accounts s))).
  { split.
    - intros (x & Hx & Hn). apply in_map_iff in Hx as (e & <- & He). eauto.
    - intros (e & He & Hn). exists (account_id e). split; [|exact Hn].
      apply in_map. exact He. }
  assert (Hnum : In r (match journals_by_number (journal_number f) s with
                       | [] => []
                       | _ :: _ => [JOURNAL_NUMBER_ALREADY_EXISTS]
                       end)
                 <-> r = JOURNAL_NUMBER_ALREADY_EXISTS
                     /\ exists d, In d (manual_journals s)
                                  /\ mj_journal_number d = journal_number f).
  { destruct (journals_by_number (journal_number f) s) as [|d l] eqn:E.
    - split; [intros []|]. intros [_ (d & Hd)].
      apply journals_by_number_in in Hd. rewrite E in Hd. destruct Hd.
    - split.
      + intros [<-|[]]. split; [reflexivity|]. exists d.
        apply journals_by_number_in. rewrite E. left. reflexivity.
      + intros [-> _]. left. reflexivity. }
  rewrite Hacc, Hnum. tauto.
Qed.

(** [X3] A create answered with errors has status 400 and lists every
    check that failed, not only the first: the zero-total error, the
    mismatch error, the missing-accounts error and the journal-number
    error are each in the answer exactly when their own condition holds,
    and nothing else is. *)
Theorem create_reports_every_failed_check (s s' : store) (user : Z) (b : body)
    (f : form) (status : Z) (errs : list error_reason) :
  validation b = Some f ->
  create_handler s user b = (s', Errors status errs) ->
  let es := List.filter nonEmpty (entries f) in
  status = 400
  /\ errs <> []
  /\ (In SUMATION_ZERO errs <-> (totals es).1 <= 0 \/ (totals es).2 <= 0)
  /\ (In NOT_EQUALS errs <-> (totals es).1 <> (totals es).2)
  /\ (In ACCOUNTS_IDS_NOT_FOUND errs
      <-> exists e, In e es /\ ~ In (account_id e) (map acc_id (accounts s)))
  /\ (In JOURNAL_NUMBER_ALREADY_EXISTS errs
      <-> exists d, In d (manual_journals s)
                    /\ mj_journal_number d = journal_number f)
  /\ forall r, In r errs ->
       r = SUMATION_ZERO \/ r = NOT_EQUALS \/ r = ACCOUNTS_IDS_NOT_FOUND
       \/ r = JOURNAL_NUMBER_ALREADY_EXISTS.
Proof.
  intros Hv H es.
  apply create_cases in H as [[_ H]|(f' & _ & _ & _ & H)].
  - destruct H as [H|[H|(f' & Hv' & Hne & H)]]; try discriminate.
    rewrite Hv in Hv'. injection Hv' as <-. injection H as -> ->.
    split; [reflexivity|]. split; [exact Hne|].
    pose proof (in_create_errors s f) as Hin. cbv zeta in Hin. fold es in Hin.
    repeat split; try (intros H; apply Hin in H); try (intros H; apply Hin).
    + destruct H as [[_ H]|[[E _]|[[E _]|[E _]]]]; [exact H|discriminate..].
    + left. split; [reflexivity|exact H].
    + destruct H as [[E _]|[[_ H]|[[E _]|[E _]]]]; [|exact H|..]; discriminate.
    + right. left. split; [reflexivity|exact H].
    + destruct H as [[E _]|[[E _]|[[_ H]|[E _]]]]; [| |exact H|]; discriminate.
    + right. right. left. split; [reflexivity|exact H].
    + destruct H as [[E _]|[[E _]|[[E _]|[_ H]]]]; [| | |exact H]; discriminate.
    + right. right. right. split; [reflexivity|exact H].
    + intros r Hr. apply Hin in Hr. tauto.
  - destruct H as [[_ [x H]]|(p & _ & _ & _ & H)]; discriminate.
Qed.

(** *** What a successful create writes *)

Lemma saveEntries_rows (p : JournalPoster.t) (s : store) :
  account_transactions (JournalPoster.saveEntries p s)
  = account_transactions s
    ++ rows_from (next_transaction_id s) (map snd (JournalPoster.entries p))
  /\ accounts (JournalPoster.saveEntries p s) = accounts s
  /\ account_balances (JournalPoster.saveEntries p s) = account_balances s.
Proof.
  unfold JournalPoster.saveEntries.
  generalize (map snd (JournalPoster.entries p)). intros l. revert s.
  induction l as [|e l IH]; intros s; simpl.
  - rewrite app_nil_r. auto.
  - destruct (IH (JournalPoster.insert_entry s e)) as (-> & -> & ->). simpl.
    rewrite <- app_assoc. auto.
Qed.

Lemma find_whereIn (ids : list Z) (s : store) (x : Z) :
  In x ids ->
  find (fun a => acc_id a =? x) (accounts_whereIn ids s)
  = find (fun a => acc_id a =? x) (accounts s).
Proof.
  intros Hx. unfold accounts_whereIn.
  induction (accounts s) as [|a l IH]; [reflexivity|]. simpl.
  destruct (existsb (Z.eqb (acc_id a)) ids) eqn:E; simpl.
  - rewrite IH. reflexivity.
  - destruct (Z.eqb_spec (acc_id a) x) as [Heq|_]; [|exact IH].
    exfalso. assert (Ht : existsb (Z.eqb (acc_id a)) ids = true).
    { apply existsb_exists. exists x. split; [exact Hx|].
      apply Z.eqb_eq. exact Heq. }
    congruence.
Qed.

Lemma stage_fold (s : store) (ids : list Z) (fd : string) (user : Z)
    (m : ManualJournal) (es : list entry) (p0 p : JournalPoster.t) :
  (forall e, In e es -> In (account_id e) ids) ->
  fold_left (stage_entry (accounts_whereIn ids s) fd user m) es (inr p0) = inr p ->
  exists l,
    map snd (JournalPoster.entries p) = map snd (JournalPoster.entries p0) ++ l
    /\ Forall2 (staged_from s fd user (mj_id m)) es l
    /\ JournalPoster.deleted p = JournalPoster.deleted p0.
Proof.
  revert p0. induction es as [|e es IH]; intros p0 Hids H.
  - simpl in H. injection H as <-. exists []. rewrite app_nil_r.
    repeat split. constructor.
  - simpl in H.
    rewrite (find_whereIn ids s (account_id e)) in H
      by (apply Hids; left; reflexivity).
    destruct (find (fun a => acc_id a =? account_id e) (accounts s))
      as [account|] eqn:Hf; [|rewrite stage_thrown in H; discriminate].
    unfold JournalEntry.new in H. simpl in H.
    destruct (JournalEntry.valid (debit e) (credit e));
      [|rewrite stage_thrown in H; discriminate].
    assert (Hst : staged_from s fd user (mj_id m) e
                    (entry_of fd user (mj_id m) account e))
      by (exists account; auto).
    destruct (truthy (debit e));
      apply IH in H as (l & Hl & Hall & Hdel);
      try (intros; apply Hids; right; assumption);
      exists (entry_of fd user (mj_id m) account e :: l);
      (split; [|split; [constructor; assumption|exact Hdel]]);
      rewrite Hl; simpl; rewrite map_app, <- app_assoc; reflexivity.
Qed.

Lemma errors_nil_accounts (s : store) (f : form) :
  makeJournalEntries_errors s f = [] ->
  forall e, In e (List.filter nonEmpty (entries f)) ->
            In (account_id e) (map acc_id (accounts s)).
Proof.
  intros He e Hin.
  destruct (in_dec Z.eq_dec (account_id e) (map acc_id (accounts s)))
    as [H|H]; [exact H|].
  exfalso.
  assert (Hr : In ACCOUNTS_IDS_NOT_FOUND (makeJournalEntries_errors s f)).
  { apply in_create_errors. right. right. left. split; [reflexivity|]. eauto. }
  rewrite He in Hr. destruct Hr.
Qed.

Lemma posted_rows (fd : string) (user id : Z) (s : store) (es : list entry)
    (l : list JournalEntry.t) (n : Z) :
  Forall2 (staged_from s fd user id) es l ->
  Forall2 (posted_as fd user id) es (rows_from n l).
Proof.
  intros H. revert n. induction H as [|e je es l (account & Hf & ->) _ IH];
    intros n; simpl; constructor; [|apply IH].
  apply find_some in Hf as [_ Hid]. apply Z.eqb_eq in Hid.
  unfold posted_as. simpl. auto 10.
Qed.

(** [X4] A create answers 200 only for a balanced request: the totals of
    the non-empty lines, as the handler adds them in JavaScript numbers,
    are equal and above zero, every referenced
    account is stored and the journal number was unused.  The answer
    carries the next journal id, and the one document appended to the
    store has that id, the total as amount and the fields of the form. *)
Theorem create_success_is_balanced (s s' : store) (user : Z) (b : body)
    (r : option Z) :
  create_handler s user b = (s', Ok r) ->
  exists f,
    validation b = Some f
    /\ (let es := List.filter nonEmpty (entries f) in
        0 < (totals es).1
        /\ (totals es).1 = (totals es).2
        /\ forall e, In e es -> In (account_id e) (map acc_id (accounts s)))
    /\ (forall d, In d (manual_journals s) ->
                  mj_journal_number d <> journal_number f)
    /\ r = Some (next_journal_id s)
    /\ manual_journals s'
       = manual_journals s ++ [create_document format_date s user f]
    /\ accounts s' = accounts s.
Proof.
  intros H.
  apply create_cases in H as [[_ H]|(f & Hv & He & _ & H)].
  - destruct H as [H|[H|(f & _ & _ & H)]]; discriminate.
  - destruct H as [[_ [x H]]|(p & _ & _ & -> & H)]; [discriminate|].
    injection H as <-. exists f. split; [exact Hv|].
    pose proof He as He'. unfold makeJournalEntries_errors in He'.
    apply app_eq_nil in He' as [Ht _]. apply total_errors_nil in Ht.
    split; [|split; [|split; [reflexivity|]]].
    + cbv zeta. split; [lia|]. split; [lia|]. apply errors_nil_accounts. exact He.
    + intros d Hd Hn.
      assert (Hr : In JOURNAL_NUMBER_ALREADY_EXISTS (makeJournalEntries_errors s f)).
      { apply in_create_errors. right. right. right. split; [reflexivity|]. eauto. }
      rewrite He in Hr. destruct Hr.
    + split.
      * change (manual_journals (JournalPoster.saveBalance p ?x))
          with (manual_journals x).
        rewrite saveEntries_manual_journals. reflexivity.
      * change (accounts (JournalPoster.saveBalance p ?x)) with (accounts x).
        destruct (saveEntries_rows p
                    (insert_journal (create_document format_date s user f) s))
          as (_ & -> & _). reflexivity.
Qed.

(** [X5] A create that answers 200 appends one entry per non-empty line,
    in the order of the lines and none for a dropped line: each entry
    has the account, debit, credit and note of its line, the formatted
    date, the user, the reference type ['Journal'] and the id of the new
    document as reference id. *)
Theorem create_posts_one_entry_per_line (s s' : store) (user : Z) (b : body)
    (f : form) (r : option Z) :
  validation b = Some f ->
  create_handler s user b = (s', Ok r) ->
  exists rows,
    account_transactions s' = account_transactions s ++ rows
    /\ Forall2 (posted_as (format_date (date f)) user (next_journal_id s))
         (List.filter nonEmpty (entries f)) rows.
Proof.
  intros Hv H.
  apply create_cases in H as [[_ H]|(f' & Hv' & He & _ & H)].
  - destruct H as [H|[H|(f' & _ & _ & H)]]; discriminate.
  - rewrite Hv in Hv'. injection Hv' as <-.
    destruct H as [[_ [x H]]|(p & Hp & _ & -> & _)]; [discriminate|].
    unfold create_poster in Hp.
    apply stage_fold in Hp as (l & Hl & Hall & _).
    + exists (rows_from (next_transaction_id s) l). split.
      * change (account_transactions (JournalPoster.saveBalance p ?x))
          with (account_transactions x).
        destruct (saveEntries_rows p
                    (insert_journal (create_document format_date s user f) s))
          as (-> & _). rewrite Hl. reflexivity.
      * apply posted_rows with (s := s). exact Hall.
    + intros e Hin. apply in_map. exact Hin.
Qed.

(** *** Posting and then removing *)

Lemma change_on_app (a : Z) (l1 l2 : list (Z * Z)) :
  change_on a (l1 ++ l2) = change_on a l1 + change_on a l2.
Proof.
  induction l1 as [|c l1 IH]; [simpl; lia|].
  rewrite <- app_comm_cons, !change_on_cons, IH. lia.
Qed.

Lemma change_on_staged (a : Z) (l : list (JournalPoster.bucket * JournalEntry.t)) :
  change_on a
    (map (fun '(_, e) =>
            (JournalEntry.account e,
             JournalPoster.delta (JournalEntry.accountNormal e)
               (JournalEntry.debit e) (JournalEntry.credit e))) l)
  = staged_effect a (map snd l).
Proof.
  induction l as [|[k e] l IH]; [reflexivity|].
  cbn [map]. rewrite change_on_cons, IH. reflexivity.
Qed.

Lemma transactions_of_with_account (types : list string) (id : Z) (s : store) :
  transactions_of types id s
  = map (with_account s)
      (List.filter
         (fun t => existsb (String.eqb (tr_reference_type t)) types
                   && (tr_reference_id t =? id))
         (account_transactions s)).
Proof. reflexivity. Qed.

Lemma rows_from_ids (n : Z) (l : list JournalEntry.t) (t : AccountTransaction) :
  In t (rows_from n l) -> n <= tr_id t.
Proof.
  revert n. induction l as [|e l IH]; intros n; simpl; [intros []|].
  intros [<-|H]; [simpl; lia|]. apply IH in H. lia.
Qed.

Lemma posted_found (types : list string) (fd : string) (user id a n : Z)
    (s s1 : store) (es : list entry) (l : list JournalEntry.t) :
  In "Journal"%string types ->
  accounts s1 = accounts s ->
  Forall2 (staged_from s fd user id) es l ->
  List.filter
    (fun t => existsb (String.eqb (tr_reference_type t)) types
              && (tr_reference_id t =? id))
    (rows_from n l) = rows_from n l
  /\ effect_on a (map (with_account s1) (rows_from n l)) = staged_effect a l.
Proof.
  intros Ht Hacc H. revert n.
  induction H as [|e je es l (account & Hf & ->) _ IH]; intros n;
    [split; reflexivity|].
  destruct (IH (n + 1)) as [IH1 IH2]. split.
  - cbn [rows_from List.filter].
    assert (Hp :
      existsb
        (String.eqb
           (tr_reference_type
              (JournalPoster.transaction_of n (entry_of fd user id account e))))
        types
      && (tr_reference_id
            (JournalPoster.transaction_of n (entry_of fd user id account e))
          =? id) = true).
    { apply andb_true_intro. split;
        [apply existsb_string_eqb; exact Ht|apply Z.eqb_refl]. }
    rewrite Hp, IH1. reflexivity.
  - cbn [rows_from map]. rewrite effect_on_cons, IH2.
    unfold staged_effect at 2. cbn [fold_right]. fold (staged_effect a l).
    f_equal. unfold with_account, loaded_delta. simpl. rewrite Hacc.
    pose proof Hf as Hid. apply find_some in Hid as [_ Hid].
    apply Z.eqb_eq in Hid. rewrite Hid, Hf. reflexivity.
Qed.

Lemma none_referenced (types : list string) (id : Z)
    (l : list AccountTransaction) :
  (forall t, In t l -> tr_reference_id t <> id) ->
  List.filter
    (fun t => existsb (String.eqb (tr_reference_type t)) types
              && (tr_reference_id t =? id)) l = [].
Proof.
  intros H. induction l as [|t l IH]; [reflexivity|]. simpl.
  assert (Hne : (tr_reference_id t =? id) = false)
    by (apply Z.eqb_neq, H; left; reflexivity).
  rewrite Hne, andb_false_r. apply IH. intros; apply H; right; assumption.
Qed.

(** The shape of the store after a create that answered 200. *)
Lemma create_success_shape (s s1 : store) (user : Z) (b : body) (r : option Z) :
  create_handler s user b = (s1, Ok r) ->
  exists f l,
    validation b = Some f
    /\ r = Some (next_journal_id s)
    /\ fails DocumentWrite = false
    /\ fails EntriesWrite || fails BalanceWrite = false
    /\ Forall2 (staged_from s (format_date (date f)) user (next_journal_id s))
         (List.filter nonEmpty (entries f)) l
    /\ manual_journals s1
       = manual_journals s ++ [create_document format_date s user f]
    /\ accounts s1 = accounts s
    /\ account_transactions s1
       = account_transactions s ++ rows_from (next_transaction_id s) l
    /\ forall a, balance s1 a = balance s a + staged_effect a l.
Proof.
  intros H.
  apply create_cases in H as [[_ H]|(f & Hv & He & Hd & H)].
  - destruct H as [H|[H|(f & _ & _ & H)]]; discriminate.
  - destruct H as [[_ [x H]]|(p & Hp & Hc & -> & H)]; [discriminate|].
    injection H as <-. unfold create_poster in Hp.
    apply stage_fold in Hp as (l & Hl & Hall & Hdel);
      [|intros e Hin; apply in_map; exact Hin].
    simpl in Hl, Hdel. exists f, l.
    destruct (saveEntries_rows p
                (insert_journal (create_document format_date s user f) s))
      as (Htx & Hacc & Hbal).
    split; [exact Hv|]. split; [reflexivity|]. split; [exact Hd|].
    split; [exact Hc|]. split; [exact Hall|]. repeat split.
    + change (manual_journals (JournalPoster.saveBalance p ?x))
        with (manual_journals x).
      rewrite saveEntries_manual_journals. reflexivity.
    + change (accounts (JournalPoster.saveBalance p ?x)) with (accounts x).
      rewrite Hacc. reflexivity.
    + change (account_transactions (JournalPoster.saveBalance p ?x))
        with (account_transactions x).
      rewrite Htx, Hl. reflexivity.
    + intros a. rewrite balance_saveBalance. unfold balance at 1.
      rewrite Hbal. unfold JournalPoster.balancesChange.
      rewrite Hdel. simpl. rewrite app_nil_r, change_on_staged, Hl. reflexivity.
Qed.

Lemma found_after_create (id : Z) (l : list ManualJournal) (d : ManualJournal) :
  mj_id d = id -> exists d', find (fun x => mj_id x =? id) (l ++ [d]) = Some d'.
Proof.
  intros Hid. destruct (find _ (l ++ [d])) as [d'|] eqn:E; [eauto|].
  exfalso. eapply find_none in E; [|apply in_or_app; right; left; reflexivity].
  simpl in E. apply Z.eqb_neq in E. contradiction.
Qed.

Lemma existsb_with_account (s : store) (t : AccountTransaction)
    (rows : list AccountTransaction) :
  existsb (fun '(d, _) => tr_id d =? tr_id t) (map (with_account s) rows)
  = existsb (fun d => tr_id d =? tr_id t) rows.
Proof.
  induction rows as [|x xs IH]; [reflexivity|]. simpl. rewrite IH. reflexivity.
Qed.

Lemma filter_none {A : Type} (l : list A) : List.filter (fun _ => false) l = [].
Proof. induction l as [|x l IH]; [reflexivity|exact IH]. Qed.

(** What removing the entries of a just created document does: the
    reversed effect is the staged one, and the entries left are the ones
    from before the create. *)
Lemma posting_removed (types : list string) (fd : string) (user : Z)
    (s s1 : store) (es : list entry) (l : list JournalEntry.t) :
  In "Journal"%string types ->
  fresh_ids s ->
  accounts s1 = accounts s ->
  account_transactions s1
  = account_transactions s ++ rows_from (next_transaction_id s) l ->
  Forall2 (staged_from s fd user (next_journal_id s)) es l ->
  (forall a, effect_on a (transactions_of types (next_journal_id s) s1)
             = staged_effect a l)
  /\ List.filter
       (fun t =>
          negb (existsb (fun '(d, _) => tr_id d =? tr_id t)
                  (transactions_of types (next_journal_id s) s1)))
       (account_transactions s1)
     = account_transactions s.
Proof.
  intros Ht [_ Hfresh] Hacc Htx Hall.
  assert (Htr : transactions_of types (next_journal_id s) s1
                = map (with_account s1) (rows_from (next_transaction_id s) l)).
  { rewrite transactions_of_with_account, Htx, List.filter_app.
    rewrite none_referenced
      by (intros t Hin; destruct (Hfresh t Hin); lia).
    destruct (posted_found types fd user (next_journal_id s) 0
                (next_transaction_id s) s s1 es l Ht Hacc Hall) as [-> _].
    reflexivity. }
  split.
  - intros a. rewrite Htr.
    apply (posted_found types fd user (next_journal_id s) a
             (next_transaction_id s) s s1 es l Ht Hacc Hall).
  - rewrite Htr, Htx, List.filter_app.
    rewrite (filter_ext_in _ (fun _ => true) (account_transactions s)).
    + rewrite filter_all.
      rewrite (filter_ext_in _ (fun _ => false)
                 (rows_from (next_transaction_id s) l)).
      * rewrite filter_none. apply app_nil_r.
      * intros t Hin. rewrite existsb_with_account.
        apply negb_false_iff, existsb_exists.
        exists t. split; [exact Hin|apply Z.eqb_refl].
    + intros t Hin. rewrite existsb_with_account. apply negb_true_iff.
      destruct (existsb _ _) eqn:E; [|reflexivity].
      apply existsb_exists in E as (x & Hx & Heq).
      apply rows_from_ids in Hx. apply Z.eqb_eq in Heq.
      destruct (Hfresh t Hin). lia.
Qed.

(** [X6] On a store whose ids are below its counters, a create that
    answered 200 followed by the delete of the returned id brings back
    the documents, the entries and every balance of before the create;
    the accounts are untouched. *)
Theorem create_then_delete_restores (s s1 : store) (user id : Z) (b : body) :
  fresh_ids s ->
  create_handler s user b = (s1, Ok (Some id)) ->
  exists s2,
    delete_handler s1 (Numeric id) = (s2, Ok (Some id))
    /\ manual_journals s2 = manual_journals s
    /\ account_transactions s2 = account_transactions s
    /\ accounts s2 = accounts s
    /\ forall a, balance s2 a = balance s a.
Proof.
  intros Hfresh H.
  apply create_success_shape in H
    as (f & l & Hv & Hid & Hd & Hc & Hall & Hmj & Hacc & Htx & Hbal).
  injection Hid as ->.
  destruct (found_after_create (next_journal_id s) (manual_journals s)
              (create_document format_date s user f) eq_refl) as (d' & Hfound).
  rewrite <- Hmj in Hfound.
  rewrite (delete_run s1 (next_journal_id s) (Numeric (next_journal_id s)) d'
             eq_refl Hfound), Hd. simpl. rewrite Hc.
  eexists. split; [reflexivity|].
  destruct (posting_removed ["Journal"%string; "ManualJournal"%string]
              (format_date (date f)) user s s1
              (List.filter nonEmpty (entries f)) l
              (or_introl eq_refl) Hfresh Hacc Htx Hall) as [Heff Hrest].
  repeat split.
  - simpl. rewrite Hmj, List.filter_app. simpl. rewrite Z.eqb_refl. simpl.
    rewrite app_nil_r.
    rewrite (filter_ext_in _ (fun _ => true)); [apply filter_all|].
    intros d Hin. destruct Hfresh as [Hdoc _]. specialize (Hdoc d Hin).
    apply negb_true_iff, Z.eqb_neq. lia.
  - exact Hrest.
  - exact Hacc.
  - intros a. rewrite balance_saveBalance, change_on_removal, Heff.
    change (balance (JournalPoster.deleteEntries _ (delete_document s1 _)) a)
      with (balance s1 a).
    rewrite Hbal. lia.
Qed.

(** [X7] On a store whose ids are below its counters, an edit that
    answers 200 for a document just created takes the posting back and
    puts nothing in its place: whatever lines the edit carries, the
    entries and every balance are those of before the create. *)
Theorem create_then_edit_reverses (s s1 s2 : store) (user user2 id : Z)
    (b b2 : body) :
  fresh_ids s ->
  create_handler s user b = (s1, Ok (Some id)) ->
  edit_handler s1 user2 (Numeric id) b2 = (s2, Ok None) ->
  account_transactions s2 = account_transactions s
  /\ forall a, balance s2 a = balance s a.
Proof.
  intros Hfresh H H2.
  apply create_success_shape in H
    as (f & l & Hv & Hid & Hd & Hc & Hall & Hmj & Hacc & Htx & Hbal).
  injection Hid as ->.
  destruct (posting_removed ["Journal"%string]
              (format_date (date f)) user s s1
              (List.filter nonEmpty (entries f)) l
              (or_introl eq_refl) Hfresh Hacc Htx Hall) as [Heff Hrest].
  apply edit_cases in H2 as [[_ H2]|(id & f2 & d & Hi & _ & _ & _ & _ & H2)].
  - destruct H2 as [H2|[H2|[H2|(? & ? & _ & _ & _ & H2)]]]; discriminate.
  - simpl in Hi. injection Hi as Hi. subst id.
    destruct H2 as [[_ H2]|(_ & -> & _)]; [discriminate|].
    change (removal ["Journal"%string] (next_journal_id s)
              (edit_document format_date s1 (next_journal_id s) f2))
      with (removal ["Journal"%string] (next_journal_id s) s1).
    split.
    + exact Hrest.
    + intros a. rewrite balance_saveBalance, change_on_removal, Heff.
      match goal with
      | |- balance ?x a + _ = _ => change (balance x a) with (balance s1 a)
      end.
      rewrite Hbal. lia.
Qed.

(** [X8] After a delete that answered 200 the store holds no document
    with the id and no entry of reference type ['Journal'] or
    ['ManualJournal'] that refers to it; the delete adds no entry. *)
Theorem delete_leaves_no_entry (s s' : store) (i : field) (r : option Z) :
  delete_handler s i = (s', Ok r) ->
  exists id,
    numeric_field i = Some id
    /\ r = Some id
    /\ journal_by_id id s' = None
    /\ transactions_of ["Journal"%string; "ManualJournal"%string] id s' = []
    /\ forall t, In t (account_transactions s') -> In t (account_transactions s).
Proof.
  intros H. apply delete_cases in H as [[_ H]|(id & d & Hi & Hd & _ & H)].
  - destruct H as [H|[H|H]]; discriminate.
  - destruct H as [[_ H]|(_ & -> & H)]; [discriminate|].
    injection H as ->. exists id. split; [exact Hi|]. split; [reflexivity|].
    split; [|split].
    + unfold journal_by_id. simpl. apply find_after_delete.
    + rewrite transactions_of_with_account. simpl.
      rewrite (filter_ext_in _ (fun _ => false)); [rewrite filter_none; reflexivity|].
      intros t Hin. apply filter_In in Hin as [Hin Hkept].
      match goal with |- ?p = false => destruct p eqn:Hp end; [|reflexivity].
      exfalso. apply negb_true_iff in Hkept.
      assert (Hex : existsb (fun '(d0, _) => tr_id d0 =? tr_id t)
                      (transactions_of
                         ["Journal"%string; "ManualJournal"%string] id s) = true).
      { rewrite transactions_of_with_account, existsb_with_account.
        apply existsb_exists. exists t. split; [|apply Z.eqb_refl].
        apply filter_In. split; [exact Hin|exact Hp]. }
      simpl in Hkept. congruence.
    + intros t Hin. simpl in Hin. apply filter_In in Hin as [Hin _]. exact Hin.
Qed.

(** *** The documents *)

Lemma commit_steps_manual_journals (p q : JournalPoster.t) (x : store) :
  manual_journals
    (JournalPoster.saveBalance p
       (JournalPoster.saveEntries p (JournalPoster.deleteEntries q x)))
  = manual_journals x.
Proof.
  change (manual_journals (JournalPoster.saveBalance p ?y))
    with (manual_journals y).
  rewrite saveEntries_manual_journals. reflexivity.
Qed.

Lemma in_updated (id : Z) (f : form) (tc : Z) (fd : string)
    (l : list ManualJournal) (d : ManualJournal) :
  mj_id d <> id ->
  In d (map (update_journal id f tc fd) l) <-> In d l.
Proof.
  intros Hne. rewrite in_map_iff. split.
  - intros (x & Hx & Hin). unfold update_journal in Hx.
    destruct (Z.eqb_spec (mj_id x) id) as [Heq|_].
    + subst d. simpl in Hne. contradiction.
    + subst x. exact Hin.
  - intros Hin. exists d. split; [|exact Hin]. unfold update_journal.
    destruct (Z.eqb_spec (mj_id d) id); [contradiction|reflexivity].
Qed.

(** [X9] An edit or a delete, whatever its answer and whichever write
    is rejected, leaves every document with another id as it is and adds
    none: a document whose id is not the requested one is in the store
    after the call exactly when it was there before. *)
Theorem other_documents_untouched (s s' : store) (user : Z) (i : field)
    (b : body) (r : response) (d : ManualJournal) :
  edit_handler s user i b = (s', r) \/ delete_handler s i = (s', r) ->
  numeric_field i <> Some (mj_id d) ->
  In d (manual_journals s') <-> In d (manual_journals s).
Proof.
  intros [H|H] Hne.
  - apply edit_cases in H as [[-> _]|(id & f & d0 & Hi & _ & _ & _ & _ & H)];
      [reflexivity|].
    assert (Hd : mj_id d <> id) by (intros <-; contradiction).
    destruct H as [[-> _]|(_ & -> & _)].
    + simpl. apply in_updated. exact Hd.
    + rewrite commit_steps_manual_journals. simpl. apply in_updated. exact Hd.
  - apply delete_cases in H as [[-> _]|(id & d0 & Hi & _ & _ & H)];
      [reflexivity|].
    assert (Hd : mj_id d <> id) by (intros <-; contradiction).
    assert (Hf : In d (List.filter (fun x => negb (mj_id x =? id))
                         (manual_journals s)) <-> In d (manual_journals s)).
    { rewrite filter_In. apply Z.eqb_neq in Hd. rewrite Hd. simpl. tauto. }
    destruct H as [[-> _]|(_ & -> & _)]; exact Hf.
Qed.

(** [X10] A create keeps the journal numbers of the store distinct,
    whatever its answer and whichever write is rejected: when no two
    documents share a journal number before the call, none do after. *)
Theorem create_keeps_numbers_unique (s s' : store) (user : Z) (b : body)
    (r : response) :
  NoDup (map mj_journal_number (manual_journals s)) ->
  create_handler s user b = (s', r) ->
  NoDup (map mj_journal_number (manual_journals s')).
Proof.
  intros Hnd H.
  apply create_cases in H as [[-> _]|(f & _ & He & _ & H)]; [exact Hnd|].
  assert (Hmj : manual_journals s'
                = manual_journals s ++ [create_document format_date s user f]).
  { destruct H as [[-> _]|(p & _ & _ & -> & _)]; [reflexivity|].
    change (manual_journals (JournalPoster.saveBalance p ?y))
      with (manual_journals y).
    rewrite saveEntries_manual_journals. reflexivity. }
  rewrite Hmj, map_app. simpl. apply NoDup_app. split; [exact Hnd|].
  split; [|apply NoDup_singleton].
  intros n Hn Hin. apply list_elem_of_In in Hn.
  apply list_elem_of_In in Hin. destruct Hin as [<-|[]].
  apply in_map_iff in Hn as (d & Hnum & Hd).
  assert (Hr : In JOURNAL_NUMBER_ALREADY_EXISTS (makeJournalEntries_errors s f)).
  { apply in_create_errors. right. right. right. split; [reflexivity|]. eauto. }
  rewrite He in Hr. destruct Hr.
Qed.

(** [X11] On the store a create that answered 200 returned, a create
    with the same journal number is answered with
    JOURNAL.NUMBER.ALREADY.EXISTS and writes nothing, whoever sends it
    and whatever its lines. *)
Theorem second_create_same_number_rejected (s s1 : store) (user user2 : Z)
    (b b2 : body) (f f2 : form) (r : option Z) :
  validation b = Some f ->
  validation b2 = Some f2 ->
  journal_number f2 = journal_number f ->
  create_handler s user b = (s1, Ok r) ->
  exists errs,
    create_handler s1 user2 b2 = (s1, Errors 400 errs)
    /\ In JOURNAL_NUMBER_ALREADY_EXISTS errs.
Proof.
  intros Hv Hv2 Hn H.
  apply create_success_shape in H
    as (f' & l & Hv' & _ & _ & _ & _ & Hmj & _).
  rewrite Hv in Hv'. injection Hv' as <-.
  assert (Hr : In JOURNAL_NUMBER_ALREADY_EXISTS (makeJournalEntries_errors s1 f2)).
  { apply in_create_errors. right. right. right. split; [reflexivity|].
    exists (create_document format_date s user f). split.
    - rewrite Hmj. apply in_or_app. right. left. reflexivity.
    - simpl. symmetry. exact Hn. }
  exists (makeJournalEntries_errors s1 f2). split; [|exact Hr].
  apply create_errors; [exact Hv2|]. eapply in_not_nil. exact Hr.
Qed.

(** *** The handlers beside the posting ones *)

Lemma find_filter_or (c d : Z) (l : list Account) :
  find (fun a => acc_id a =? c)
    (List.filter (fun a => (acc_id a =? c) || (acc_id a =? d)) l)
  = find (fun a => acc_id a =? c) l
  /\ find (fun a => acc_id a =? d)
       (List.filter (fun a => (acc_id a =? c) || (acc_id a =? d)) l)
     = find (fun a => acc_id a =? d) l.
Proof.
  induction l as [|a l [IH1 IH2]]; [split; reflexivity|]. simpl.
  destruct (acc_id a =? c) eqn:Ec; destruct (acc_id a =? d) eqn:Ed; simpl;
    rewrite ?Ec, ?Ed; auto.
Qed.

Lemma find_account_none (x : Z) (l : list Account) :
  find (fun a => acc_id a =? x) l = None <-> ~ In x (map acc_id l).
Proof.
  split.
  - intros H Hin. apply in_map_iff in Hin as (a & <- & Ha).
    eapply find_none in H; [|exact Ha]. simpl in H.
    rewrite Z.eqb_refl in H. discriminate.
  - intros H. destruct (find _ l) as [a|] eqn:E; [|reflexivity].
    exfalso. apply find_some in E as [Ha Hid]. apply Z.eqb_eq in Hid.
    apply H. apply in_map_iff. eauto.
Qed.

(** [X12] A valid quick-journal request is answered 200 exactly when
    both its credit and its debit account are stored (the same account
    on both sides is accepted).  Otherwise the answer is status 400 with
    CREDIT_ACCOUNT.NOT.EXIST exactly when the credit account is missing
    and DEBIT_ACCOUNT.NOT.EXIST exactly when the debit account is. *)
Theorem quick_journal_checks_both_accounts (s : store) (b : quick_body)
    (c d : Z) :
  quickJournalEntries_validation isISO8601 b = Some (c, d) ->
  let ids := map acc_id (accounts s) in
  (quickJournalEntries_handler isISO8601 s b = Ok None
   <-> In c ids /\ In d ids)
  /\ (~ (In c ids /\ In d ids) ->
      exists errs,
        quickJournalEntries_handler isISO8601 s b = Errors 400 errs
        /\ (In CREDIT_ACCOUNT_NOT_EXIST errs <-> ~ In c ids)
        /\ (In DEBIT_ACCOUNT_NOT_EXIST errs <-> ~ In d ids)).
Proof.
  intros Hv ids. unfold quickJournalEntries_handler. rewrite Hv.
  destruct (find_filter_or c d (accounts s)) as [-> ->].
  pose proof (find_account_none c (accounts s)) as Hc.
  pose proof (find_account_none d (accounts s)) as Hd. fold ids in Hc, Hd.
  assert (Hcd : CREDIT_ACCOUNT_NOT_EXIST <> DEBIT_ACCOUNT_NOT_EXIST)
    by discriminate.
  destruct (find (fun a => acc_id a =? c) (accounts s)) as [ac|];
    destruct (find (fun a => acc_id a =? d) (accounts s)) as [ad|]; simpl.
  - assert (Ic : In c ids)
      by (destruct (in_dec Z.eq_dec c ids) as [?|n];
          [assumption|apply Hc in n; discriminate]).
    assert (Id : In d ids)
      by (destruct (in_dec Z.eq_dec d ids) as [?|n];
          [assumption|apply Hd in n; discriminate]).
    split; [tauto|]. intros Hn. exfalso. tauto.
  - assert (Ic : In c ids)
      by (destruct (in_dec Z.eq_dec c ids) as [?|n];
          [assumption|apply Hc in n; discriminate]).
    assert (Id : ~ In d ids) by (apply Hd; reflexivity).
    split; [split; [discriminate|tauto]|]. intros _. eexists.
    split; [reflexivity|]. simpl. split; split;
      try tauto; try (intros _; left; reflexivity);
      intros [H|[]]; exfalso; congruence.
  - assert (Ic : ~ In c ids) by (apply Hc; reflexivity).
    assert (Id : In d ids)
      by (destruct (in_dec Z.eq_dec d ids) as [?|n];
          [assumption|apply Hd in n; discriminate]).
    split; [split; [discriminate|tauto]|]. intros _. eexists.
    split; [reflexivity|]. simpl. split; split;
      try tauto; try (intros _; left; reflexivity);
      intros [H|[]]; exfalso; congruence.
  - assert (Ic : ~ In c ids) by (apply Hc; reflexivity).
    assert (Id : ~ In d ids) by (apply Hd; reflexivity).
    split; [split; [discriminate|tauto]|]. intros _. eexists.
    split; [reflexivity|]. simpl. split; split;
      try tauto; try (intros _; left; reflexivity);
      intros _; right; left; reflexivity.
Qed.

(** [X13] [getManualJournal] sends nothing for a stored document: it
    returns without an answer exactly when the id is numeric and a
    document has it, in particular for the id a create just returned;
    every answer it does send is the validation error or
    MANUAL.JOURNAL.NOT.FOUND. *)
Theorem get_manual_journal_sends_no_document (s s1 : store) (user : Z)
    (i : field) (b : body) :
  (getManualJournal_handler s i = None
   <-> exists id d, numeric_field i = Some id
                    /\ In d (manual_journals s) /\ mj_id d = id)
  /\ (forall r, getManualJournal_handler s i = Some r ->
        r = BadData \/ r = Errors 404 [MANUAL_JOURNAL_NOT_FOUND])
  /\ (forall id, create_handler s user b = (s1, Ok (Some id)) ->
        getManualJournal_handler s1 (Numeric id) = None).
Proof.
  assert (Hnone : forall s0 i0,
    getManualJournal_handler s0 i0 = None
    <-> exists id d, numeric_field i0 = Some id
                     /\ In d (manual_journals s0) /\ mj_id d = id).
  { intros s0 i0. unfold getManualJournal_handler. split.
    - destruct (numeric_field i0) as [id|]; [|discriminate].
      destruct (journal_by_id id s0) as [d|] eqn:Hd; [|discriminate].
      intros _. apply journal_by_id_id in Hd as [Hin Hid]. eauto.
    - intros (id & d & -> & Hin & Hid).
      destruct (journal_by_id id s0) as [d'|] eqn:Hd; [reflexivity|].
      exfalso. unfold journal_by_id in Hd. eapply find_none in Hd; [|exact Hin].
      simpl in Hd. apply Z.eqb_neq in Hd. contradiction. }
  split; [apply Hnone|]. split.
  - intros r. unfold getManualJournal_handler.
    destruct (numeric_field i) as [id|]; [|intros H; injection H as <-; auto].
    destruct (journal_by_id id s); [discriminate|].
    intros H; injection H as <-; auto.
  - intros id H. apply create_success_shape in H
      as (f & l & _ & Hid & _ & _ & _ & Hmj & _).
    injection Hid as ->. apply Hnone.
    exists (next_journal_id s), (create_document format_date s user f).
    split; [reflexivity|]. split; [|reflexivity].
    rewrite Hmj. apply in_or_app. right. left. reflexivity.
Qed.

(** *** The edit *)

Lemma in_edit_errors (s : store) (id : Z) (f : form) (r : error_reason) :
  let es := List.filter nonEmpty (entries f) in
  In r (editManualJournal_errors s id f)
  <-> (r = SUMATION_ZERO /\ ((totals es).1 <= 0 \/ (totals es).2 <= 0))
      \/ (r = NOT_EQUALS /\ (totals es).1 <> (totals es).2)
      \/ (r = JOURNAL_NUMBER_ALREADY_EXISTS
          /\ exists d, In d (manual_journals s)
                       /\ mj_journal_number d = journal_number f
                       /\ mj_id d <> id)
      \/ (r = ACCOUNTS_IDS_NOT_FOUND
          /\ exists e, In e es /\ ~ In (account_id e) (map acc_id (accounts s))).
Proof.
  intros es. unfold editManualJournal_errors. fold es.
  rewrite !in_app_iff, in_total_errors, in_account_errors.
  assert (Hacc : (exists x, In x (map account_id es)
                            /\ ~ In x (map acc_id (accounts s)))
                 <-> exists e, In e es
                               /\ ~ In (account_id e) (map acc_id (accounts s))).
  { split.
    - intros (x & Hx & Hn). apply in_map_iff in Hx as (e & <- & He). eauto.
    - intros (e & He & Hn). exists (account_id e). split; [|exact Hn].
      apply in_map. exact He. }
  assert (Hnum : In r (match other_journal_by_number (journal_number f) id s with
                       | None => []
                       | Some _ => [JOURNAL_NUMBER_ALREADY_EXISTS]
                       end)
                 <-> r = JOURNAL_NUMBER_ALREADY_EXISTS
                     /\ exists d, In d (manual_journals s)
                                  /\ mj_journal_number d = journal_number f
                                  /\ mj_id d <> id).
  { rewrite (other_journal_some (journal_number f) id s).
    destruct (other_journal_by_number (journal_number f) id s) as [d|].
    - split; [intros [<-|[]]; eauto|]. intros [-> _]. left. reflexivity.
    - split; [intros []|]. intros [_ (d & Hd)]. discriminate. }
  rewrite Hacc, Hnum. tauto.
Qed.

(** [X14] An edit of a stored document answered with status 400 lists
    every check that failed: the zero-total, the mismatch and the
    missing-accounts errors as for a create, and the journal-number
    error exactly when a document with another id has the number. *)
Theorem edit_reports_every_failed_check (s s' : store) (user id : Z) (i : field)
    (b : body) (f : form) (errs : list error_reason) :
  numeric_field i = Some id ->
  validation b = Some f ->
  edit_handler s user i b = (s', Errors 400 errs) ->
  let es := List.filter nonEmpty (entries f) in
  errs <> []
  /\ (In SUMATION_ZERO errs <-> (totals es).1 <= 0 \/ (totals es).2 <= 0)
  /\ (In NOT_EQUALS errs <-> (totals es).1 <> (totals es).2)
  /\ (In JOURNAL_NUMBER_ALREADY_EXISTS errs
      <-> exists d, In d (manual_journals s)
                    /\ mj_journal_number d = journal_number f
                    /\ mj_id d <> id)
  /\ (In ACCOUNTS_IDS_NOT_FOUND errs
      <-> exists e, In e es /\ ~ In (account_id e) (map acc_id (accounts s))).
Proof.
  intros Hi Hv H es.
  apply edit_cases in H as [[_ H]|(? & ? & ? & _ & _ & _ & _ & _ & H)].
  - destruct H as [H|[H|[H|(id' & f' & Hi' & Hv' & Hne & H)]]];
      try discriminate.
    rewrite Hi in Hi'. injection Hi' as <-.
    rewrite Hv in Hv'. injection Hv' as <-. injection H as ->.
    split; [exact Hne|].
    pose proof (in_edit_errors s id f) as Hin. cbv zeta in Hin. fold es in Hin.
    repeat split; try (intros H; apply Hin in H); try (intros H; apply Hin).
    + destruct H as [[_ H]|[[E _]|[[E _]|[E _]]]]; [exact H|discriminate..].
    + left. split; [reflexivity|exact H].
    + destruct H as [[E _]|[[_ H]|[[E _]|[E _]]]]; [|exact H|..]; discriminate.
    + right. left. split; [reflexivity|exact H].
    + destruct H as [[E _]|[[E _]|[[_ H]|[E _]]]]; [| |exact H|]; discriminate.
    + right. right. left. split; [reflexivity|exact H].
    + destruct H as [[E _]|[[E _]|[[E _]|[_ H]]]]; [| | |exact H]; discriminate.
    + right. right. right. split; [reflexivity|exact H].
  - destruct H as [[_ H]|(_ & _ & H)]; discriminate.
Qed.

Lemma update_keeps (id : Z) (f : form) (tc : Z) (fd : string)
    (l : list ManualJournal) :
  map mj_id (map (update_journal id f tc fd) l) = map mj_id l
  /\ map mj_user_id (map (update_journal id f tc fd) l) = map mj_user_id l.
Proof.
  induction l as [|d l [IH1 IH2]]; [split; reflexivity|]. simpl.
  rewrite IH1, IH2. unfold update_journal.
  destruct (mj_id d =? id); split; reflexivity.
Qed.

(** [X15] An edit never changes which documents exist nor who created
    them: after any outcome the ids and the user ids of the documents
    are those of before.  When it answers 200 the totals of the request,
    as the handler adds them in JavaScript numbers, are equal and above
    zero, and every document with the id has the
    total as amount and the formatted date of the request. *)
Theorem edit_keeps_ids_and_creators (s s' : store) (user : Z) (i : field)
    (b : body) (r : response) :
  edit_handler s user i b = (s', r) ->
  map mj_id (manual_journals s') = map mj_id (manual_journals s)
  /\ map mj_user_id (manual_journals s') = map mj_user_id (manual_journals s)
  /\ (r = Ok None ->
      exists id f,
        numeric_field i = Some id
        /\ validation b = Some f
        /\ (let es := List.filter nonEmpty (entries f) in
            0 < (totals es).1
            /\ (totals es).1 = (totals es).2
            /\ forall d, In d (manual_journals s') -> mj_id d = id ->
                 mj_amount d = (totals es).1
                 /\ mj_date d = format_date (date f))).
Proof.
  intros H.
  apply edit_cases in H as [[-> H]|(id & f & d0 & Hi & Hv & _ & He & _ & H)].
  - split; [reflexivity|]. split; [reflexivity|]. intros ->.
    destruct H as [H|[H|[H|(? & ? & _ & _ & _ & H)]]]; discriminate.
  - assert (Hmj : manual_journals s'
                  = map (update_journal id f
                           (totals (List.filter nonEmpty (entries f))).1
                           (format_date (date f)))
                      (manual_journals s)).
    { destruct H as [[-> _]|(_ & -> & _)]; [reflexivity|].
      rewrite commit_steps_manual_journals. reflexivity. }
    rewrite Hmj.
    destruct (update_keeps id f (totals (List.filter nonEmpty (entries f))).1
                (format_date (date f)) (manual_journals s)) as [-> ->].
    split; [reflexivity|]. split; [reflexivity|]. intros _.
    exists id, f. split; [exact Hi|]. split; [exact Hv|]. cbv zeta.
    unfold editManualJournal_errors in He.
    apply app_eq_nil in He as [Ht _]. apply total_errors_nil in Ht.
    split; [lia|]. split; [lia|].
    intros d Hin Hid. apply in_map_iff in Hin as (x & <- & _).
    unfold update_journal in *. destruct (mj_id x =? id) eqn:E.
    + simpl. auto.
    + apply Z.eqb_neq in E. contradiction.
Qed.

(** [X16] After an edit that answered 200 the document has no entry of
    reference type ['Journal'] left, and every entry of the store was
    there before the edit: the stored entries of the document are
    dropped and none replaces them. *)
Theorem edit_leaves_no_journal_entry (s s' : store) (user : Z) (i : field)
    (b : body) :
  edit_handler s user i b = (s', Ok None) ->
  exists id,
    numeric_field i = Some id
    /\ transactions_of ["Journal"%string] id s' = []
    /\ forall t, In t (account_transactions s') -> In t (account_transactions s).
Proof.
  intros H. apply edit_cases in H as [[_ H]|(id & f & d & Hi & _ & _ & _ & _ & H)].
  - destruct H as [H|[H|[H|(? & ? & _ & _ & _ & H)]]]; discriminate.
  - destruct H as [[_ H]|(_ & -> & _)]; [discriminate|].
    exists id. split; [exact Hi|].
    change (removal ["Journal"%string] id (edit_document format_date s id f))
      with (removal ["Journal"%string] id s).
    split.
    + rewrite transactions_of_with_account. simpl.
      rewrite (filter_ext_in _ (fun _ => false)); [rewrite filter_none; reflexivity|].
      intros t Hin. apply filter_In in Hin as [Hin Hkept].
      match goal with |- ?p = false => destruct p eqn:Hp end; [|reflexivity].
      exfalso. apply negb_true_iff in Hkept.
      assert (Hex : existsb (fun '(d0, _) => tr_id d0 =? tr_id t)
                      (transactions_of ["Journal"%string] id s) = true).
      { rewrite transactions_of_with_account, existsb_with_account.
        apply existsb_exists. exists t. split; [|apply Z.eqb_refl].
        apply filter_In. split; [exact Hin|exact Hp]. }
      simpl in Hkept. congruence.
    + intros t Hin. simpl in Hin. apply filter_In in Hin as [Hin _]. exact Hin.
Qed.

End Properties.

(** * The properties on the running example *)

(** The scenario of the specification up to the delete: the create
    leaves both balances at 100 and a document of amount 100; the delete
    brings both balances back to 0 and removes document and entries. *)
Example scenario_create_then_delete :
  let deleted := deleteManualJournal_handler no_fault store1 (Numeric 1) in
  map mj_amount (manual_journals store1) = [100]
  /\ (balance store1 1 = 100 /\ balance store1 2 = 100)
  /\ deleted.2 = Ok (Some 1)
  /\ manual_journals deleted.1 = []
  /\ account_transactions deleted.1 = []
  /\ (balance deleted.1 1 = 0 /\ balance deleted.1 2 = 0).
Proof. vm_compute. repeat split. Qed.

(** [C1] The scenario of the specification: journal "J-1" posted 100
    from account 1 to account 2, then edited to 40.  The edit succeeds
    and updates the amount of the document, but it only removes the old
    entries: no entry of the request is written and both balances end
    at 0, where posting the 40 directly gives 40 and 40. *)
Theorem edit_posts_no_new_entries :
  let new_lines := [line 1 (Numeric 40) Absent; line 2 Absent (Numeric 40)] in
  let edited := edit no_fault store1 1 "J-1" new_lines in
  let direct := create no_fault store0 "J-1" new_lines in
  (balance store1 1 = 100 /\ balance store1 2 = 100)
  /\ edited.2 = Ok None
  /\ map mj_amount (manual_journals edited.1) = [40]
  /\ account_transactions edited.1 = []
  /\ (balance edited.1 1 = 0 /\ balance edited.1 2 = 0)
  /\ direct.2 = Ok (Some 1)
  /\ length (account_transactions direct.1) = 2%nat
  /\ (balance direct.1 1 = 40 /\ balance direct.1 2 = 40).
Proof. vm_compute. repeat split. Qed.



(** The totals are sums of doubles: 2^53 + 1 is 2^53, so debits of 2^53
    and 1 balance a credit of 2^53 and the request is posted. *)
Example totals_round_like_doubles :
  js_add (2 ^ 53) 1 = 2 ^ 53
  /\ js_add (2 ^ 53) 3 = 2 ^ 53 + 4
  /\ js_add INFINITY 1 = INFINITY
  /\ (create no_fault store0 "J-1"
        [line 1 (Numeric (2 ^ 53)) Absent; line 1 (Numeric 1) Absent;
         line 2 Absent (Numeric (2 ^ 53))]).2 = Ok (Some 1).
Proof. vm_compute. repeat split. Qed.

(** [C4] is false as stated: a line with a set amount of zero is dropped
    without an error and the request is posted; and a line with both
    amounts set in a request whose totals differ is answered with
    CREDIT.DEBIT.NOT.EQUALS, not with [InvalidEntryError]. *)
Lemma invalid_entry_counterexample :
  (create no_fault store0 "J-1"
     [line 1 (Numeric 0) Absent; line 1 (Numeric 100) Absent;
      line 2 Absent (Numeric 100)]).2 = Ok (Some 1)
  /\ create no_fault store0 "J-1"
       [line 1 (Numeric 100) (Numeric 50); line 2 Absent (Numeric 20)]
     = (store0, Errors 400 [NOT_EQUALS]).
Proof. vm_compute. split; reflexivity. Qed.

(** [C5] is false as stated: with the two missing ids 7 and 9 the answer
    holds the single error object of type and code, and no field of it
    holds the ids. *)
Lemma missing_ids_counterexample :
  create no_fault store0 "J-1"
    [line 7 (Numeric 100) Absent; line 9 Absent (Numeric 100)]
  = (store0, Errors 400 [ACCOUNTS_IDS_NOT_FOUND])
  /\ ~ carries_ids ACCOUNTS_IDS_NOT_FOUND [7; 9].
Proof.
  split; [vm_compute; reflexivity|].
  intros (k & l & Hin & _). simpl in Hin.
  destruct Hin as [H|[H|[]]]; discriminate.
Qed.

(** ** The theorems at concrete requests *)

Lemma short_entries_rejected_witness :
  create no_fault store0 "J-1" [line 1 (Numeric 100) Absent] = (store0, BadData)
  /\ edit no_fault store0 1 "J-1" [line 1 (Numeric 100) Absent]
     = (store0, BadData).
Proof.
  apply (short_entries_rejected any_date same same no_fault store0 7 (Numeric 1)
           (request "J-1" [line 1 (Numeric 100) Absent])
           [line 1 (Numeric 100) Absent]).
  - reflexivity.
  - simpl. lia.
Defined.

Lemma unbalanced_totals_rejected_witness :
  exists errs,
    create no_fault store0 "J-1"
      [line 1 (Numeric 100) Absent; line 2 Absent (Numeric 90)]
    = (store0, Errors 400 errs)
    /\ In NOT_EQUALS errs.
Proof.
  apply (unbalanced_totals_rejected any_date same same no_fault store0 7
           (request "J-1" [line 1 (Numeric 100) Absent; line 2 Absent (Numeric 90)])
           (form_of "J-1" [entry_line 1 (Some 100) None;
                           entry_line 2 None (Some 90)])).
  - reflexivity.
  - vm_compute. discriminate.
Defined.

Lemma missing_accounts_rejected_witness :
  exists errs,
    create no_fault store0 "J-1"
      [line 7 (Numeric 100) Absent; line 9 Absent (Numeric 100)]
    = (store0, Errors 400 errs)
    /\ (exists pre post,
          errs = pre ++ ACCOUNTS_IDS_NOT_FOUND :: post
          /\ ~ In ACCOUNTS_IDS_NOT_FOUND pre
          /\ ~ In ACCOUNTS_IDS_NOT_FOUND post)
    /\ forall r, In r errs -> exists t c, r = reason t c.
Proof.
  apply (missing_accounts_rejected any_date same same no_fault store0 7
           (request "J-1" [line 7 (Numeric 100) Absent; line 9 Absent (Numeric 100)])
           (form_of "J-1" [entry_line 7 (Some 100) None;
                           entry_line 9 None (Some 100)])).
  - reflexivity.
  - exists (entry_line 7 (Some 100) None). split.
    + simpl. left. reflexivity.
    + simpl. intros [H|[H|[]]]; discriminate.
Defined.

Lemma journal_number_unique_witness :
  exists errs,
    create no_fault store1 "J-1"
      [line 1 (Numeric 5) Absent; line 2 Absent (Numeric 5)]
    = (store1, Errors 400 errs)
    /\ In JOURNAL_NUMBER_ALREADY_EXISTS errs.
Proof.
  apply (journal_number_unique any_date same same no_fault store1 7 1 (Numeric 1)
           (request "J-1" [line 1 (Numeric 5) Absent; line 2 Absent (Numeric 5)])
           (form_of "J-1" [entry_line 1 (Some 5) None;
                           entry_line 2 None (Some 5)])).
  - reflexivity.
  - eexists. split; [left; reflexivity|reflexivity].
Defined.

Lemma missing_document_not_found_witness :
  let first := deleteManualJournal_handler no_fault store1 (Numeric 1) in
  edit no_fault store0 5 "J-1"
    [line 1 (Numeric 5) Absent; line 2 Absent (Numeric 5)]
  = (store0, Throw RangeError)
  /\ first.2 = Ok (Some 1)
  /\ deleteManualJournal_handler no_fault first.1 (Numeric 1)
     = (first.1, Errors 404 [MANUAL_JOURNAL_NOT_FOUND])
  /\ deleteManualJournal_handler no_fault store0 (Numeric 5)
     = (store0, Errors 404 [MANUAL_JOURNAL_NOT_FOUND]).
Proof.
  split; [|split; [reflexivity|split]].
  - apply (missing_document_not_found any_date same same no_fault store0 7 5
             (Numeric 5)
             (request "J-1" [line 1 (Numeric 5) Absent; line 2 Absent (Numeric 5)])
             (form_of "J-1" [entry_line 1 (Some 5) None;
                             entry_line 2 None (Some 5)])
             eq_refl).
    + reflexivity.
    + reflexivity.
  - apply (missing_document_not_found any_date same same no_fault store1 7 1
             (Numeric 1)
             (request "J-1" [line 1 (Numeric 5) Absent; line 2 Absent (Numeric 5)])
             (form_of "J-1" [entry_line 1 (Some 5) None;
                             entry_line 2 None (Some 5)])
             eq_refl) with (r := Some 1).
    reflexivity.
  - apply (missing_document_not_found any_date same same no_fault store0 7 5
             (Numeric 5)
             (request "J-1" [line 1 (Numeric 5) Absent; line 2 Absent (Numeric 5)])
             (form_of "J-1" [entry_line 1 (Some 5) None;
                             entry_line 2 None (Some 5)])
             eq_refl).
    reflexivity.
Defined.




Lemma invalid_line_never_posted_witness :
  exists s' r,
    create no_fault store0 "J-1"
      [line 1 (Numeric 100) (Numeric 100); line 2 Absent Absent] = (s', r)
    /\ account_transactions s' = account_transactions store0
    /\ account_balances s' = account_balances store0
    /\ ((exists errs, r = Errors 400 errs /\ errs <> [] /\ s' = store0)
        \/ (r = Throw PersistenceError /\ s' = store0)
        \/ (r = Throw InvalidEntryError
            /\ s' = insert_journal
                      (create_document same store0 7
                         (form_of "J-1" [entry_line 1 (Some 100) (Some 100);
                                         entry_line 2 None None]))
                      store0)).
Proof.
  apply (invalid_line_never_posted any_date same same no_fault store0 7
           (request "J-1" [line 1 (Numeric 100) (Numeric 100); line 2 Absent Absent])
           (form_of "J-1" [entry_line 1 (Some 100) (Some 100);
                           entry_line 2 None None])
           (entry_line 1 (Some 100) (Some 100))).
  - reflexivity.
  - simpl. left. reflexivity.
  - reflexivity.
  - left. split; eexists; reflexivity.
Defined.

(** ** The further properties at concrete requests *)

Lemma error_answers_change_nothing_witness :
  (create no_fault store0 "J-1"
     [line 1 (Numeric 100) Absent; line 2 Absent (Numeric 90)]).1 = store0.
Proof.
  apply (error_answers_change_nothing any_date same same no_fault store0
           (create no_fault store0 "J-1"
              [line 1 (Numeric 100) Absent; line 2 Absent (Numeric 90)]).1
           7 (Numeric 1)
           (request "J-1" [line 1 (Numeric 100) Absent; line 2 Absent (Numeric 90)])
           (Errors 400 [NOT_EQUALS])).
  - left. vm_compute. reflexivity.
  - right. exists 400, [NOT_EQUALS]. reflexivity.
Defined.

Lemma create_reports_every_failed_check_witness :
  exists errs,
    create no_fault store0 "J-1"
      [line 1 (Numeric 100) Absent; line 2 Absent (Numeric 90)]
    = (store0, Errors 400 errs)
    /\ In NOT_EQUALS errs
    /\ ~ In SUMATION_ZERO errs
    /\ ~ In JOURNAL_NUMBER_ALREADY_EXISTS errs.
Proof.
  exists [NOT_EQUALS]. split; [reflexivity|].
  destruct (create_reports_every_failed_check any_date same same no_fault
              store0 store0 7
              (request "J-1"
                 [line 1 (Numeric 100) Absent; line 2 Absent (Numeric 90)])
              (form_of "J-1" [entry_line 1 (Some 100) None;
                              entry_line 2 None (Some 90)])
              400 [NOT_EQUALS] eq_refl eq_refl)
    as (_ & _ & Hz & Hne & _ & Hnum & _).
  split; [|split].
  - apply Hne. vm_compute. discriminate.
  - intros H. apply Hz in H. vm_compute in H. destruct H as [H|H]; apply H;
      reflexivity.
  - intros H. apply Hnum in H as (d & [] & _).
Defined.

Lemma create_success_is_balanced_witness :
  exists f,
    manual_journals store1
    = manual_journals store0 ++ [create_document same store0 7 f].
Proof.
  destruct (create_success_is_balanced any_date same same no_fault store0 store1
              7
              (request "J-1"
                 [line 1 (Numeric 100) Absent; line 2 Absent (Numeric 100)])
              (Some 1) eq_refl)
    as (f & _ & _ & _ & _ & Hmj & _).
  exists f. exact Hmj.
Defined.

Lemma create_posts_one_entry_per_line_witness :
  exists rows,
    account_transactions store1 = account_transactions store0 ++ rows
    /\ Forall2 (posted_as "2020-01-01" 7 1)
         [entry_line 1 (Some 100) None; entry_line 2 None (Some 100)] rows.
Proof.
  apply (create_posts_one_entry_per_line any_date same same no_fault store0
           store1 7
           (request "J-1"
              [line 1 (Numeric 100) Absent; line 2 Absent (Numeric 100)])
           (form_of "J-1" [entry_line 1 (Some 100) None;
                           entry_line 2 None (Some 100)])
           (Some 1)).
  - reflexivity.
  - reflexivity.
Defined.

Lemma fresh_ids_store0 : fresh_ids store0.
Proof. split; intros x []. Defined.

Lemma create_then_delete_restores_witness :
  exists s2,
    deleteManualJournal_handler no_fault store1 (Numeric 1) = (s2, Ok (Some 1))
    /\ manual_journals s2 = manual_journals store0
    /\ account_transactions s2 = account_transactions store0
    /\ accounts s2 = accounts store0
    /\ forall a, balance s2 a = balance store0 a.
Proof.
  apply (create_then_delete_restores any_date same same no_fault store0 store1
           7 1
           (request "J-1"
              [line 1 (Numeric 100) Absent; line 2 Absent (Numeric 100)])).
  - exact fresh_ids_store0.
  - reflexivity.
Defined.

Lemma create_then_edit_reverses_witness :
  let s2 := (edit no_fault store1 1 "J-1"
               [line 1 (Numeric 40) Absent; line 2 Absent (Numeric 40)]).1 in
  account_transactions s2 = account_transactions store0
  /\ forall a, balance s2 a = balance store0 a.
Proof.
  apply (create_then_edit_reverses any_date same same no_fault store0 store1
           (edit no_fault store1 1 "J-1"
              [line 1 (Numeric 40) Absent; line 2 Absent (Numeric 40)]).1
           7 7 1
           (request "J-1"
              [line 1 (Numeric 100) Absent; line 2 Absent (Numeric 100)])
           (request "J-1"
              [line 1 (Numeric 40) Absent; line 2 Absent (Numeric 40)])).
  - exact fresh_ids_store0.
  - reflexivity.
  - vm_compute. reflexivity.
Defined.

Lemma delete_leaves_no_entry_witness :
  exists id,
    numeric_field (Numeric 1) = Some id
    /\ Some 1 = Some id
    /\ journal_by_id id
         (deleteManualJournal_handler no_fault store_tagged (Numeric 1)).1 = None
    /\ transactions_of ["Journal"%string; "ManualJournal"%string] id
         (deleteManualJournal_handler no_fault store_tagged (Numeric 1)).1 = []
    /\ forall t,
         In t (account_transactions
                 (deleteManualJournal_handler no_fault store_tagged (Numeric 1)).1) ->
         In t (account_transactions store_tagged).
Proof.
  apply (delete_leaves_no_entry no_fault store_tagged
           (deleteManualJournal_handler no_fault store_tagged (Numeric 1)).1
           (Numeric 1) (Some 1)).
  vm_compute. reflexivity.
Defined.

Lemma other_documents_untouched_witness :
  let d := create_document same store1 7
             (form_of "J-2" [entry_line 1 (Some 5) None;
                             entry_line 2 None (Some 5)]) in
  In d (manual_journals
          (deleteManualJournal_handler no_fault store1 (Numeric 1)).1)
  <-> In d (manual_journals store1).
Proof.
  apply (other_documents_untouched any_date same same no_fault store1
           (deleteManualJournal_handler no_fault store1 (Numeric 1)).1
           7 (Numeric 1)
           (request "J-1" [line 1 (Numeric 5) Absent; line 2 Absent (Numeric 5)])
           (Ok (Some 1))).
  - right. vm_compute. reflexivity.
  - vm_compute. discriminate.
Defined.

Lemma create_keeps_numbers_unique_witness :
  NoDup (map mj_journal_number
           (manual_journals
              (create no_fault store1 "J-2"
                 [line 1 (Numeric 5) Absent; line 2 Absent (Numeric 5)]).1)).
Proof.
  apply (create_keeps_numbers_unique any_date same same no_fault store1
           (create no_fault store1 "J-2"
              [line 1 (Numeric 5) Absent; line 2 Absent (Numeric 5)]).1
           7
           (request "J-2" [line 1 (Numeric 5) Absent; line 2 Absent (Numeric 5)])
           (Ok (Some 2))).
  - vm_compute. apply NoDup_singleton.
  - vm_compute. reflexivity.
Defined.

Lemma second_create_same_number_rejected_witness :
  exists errs,
    create no_fault store1 "J-1"
      [line 1 (Numeric 5) Absent; line 2 Absent (Numeric 5)]
    = (store1, Errors 400 errs)
    /\ In JOURNAL_NUMBER_ALREADY_EXISTS errs.
Proof.
  apply (second_create_same_number_rejected any_date same same no_fault store0
           store1 7 7
           (request "J-1"
              [line 1 (Numeric 100) Absent; line 2 Absent (Numeric 100)])
           (request "J-1" [line 1 (Numeric 5) Absent; line 2 Absent (Numeric 5)])
           (form_of "J-1" [entry_line 1 (Some 100) None;
                           entry_line 2 None (Some 100)])
           (form_of "J-1" [entry_line 1 (Some 5) None;
                           entry_line 2 None (Some 5)])
           (Some 1)); reflexivity.
Defined.

Lemma quick_journal_checks_both_accounts_witness :
  let b := {| quick_date := Some "2020-01-01"%string;
              quick_amount := Numeric 10;
              quick_credit_account_id := Numeric 1;
              quick_debit_account_id := Numeric 5;
              quick_transaction_type := Some "journal"%string;
              quick_note := None |} in
  exists errs,
    quickJournalEntries_handler any_date store0 b = Errors 400 errs
    /\ (In CREDIT_ACCOUNT_NOT_EXIST errs <-> ~ In 1 (map acc_id (accounts store0)))
    /\ (In DEBIT_ACCOUNT_NOT_EXIST errs <-> ~ In 5 (map acc_id (accounts store0))).
Proof.
  apply (quick_journal_checks_both_accounts any_date store0
           {| quick_date := Some "2020-01-01"%string;
              quick_amount := Numeric 10;
              quick_credit_account_id := Numeric 1;
              quick_debit_account_id := Numeric 5;
              quick_transaction_type := Some "journal"%string;
              quick_note := None |} 1 5).
  - reflexivity.
  - simpl. intros [_ [H|[H|[]]]]; discriminate.
Defined.

Lemma get_manual_journal_sends_no_document_witness :
  getManualJournal_handler store1 (Numeric 1) = None.
Proof.
  apply (get_manual_journal_sends_no_document any_date same same no_fault store0
           store1 7 (Numeric 1)
           (request "J-1"
              [line 1 (Numeric 100) Absent; line 2 Absent (Numeric 100)])).
  reflexivity.
Defined.

Lemma edit_reports_every_failed_check_witness :
  exists errs,
    edit no_fault store1 1 "J-1"
      [line 1 (Numeric 100) Absent; line 2 Absent (Numeric 90)]
    = (store1, Errors 400 errs)
    /\ In NOT_EQUALS errs
    /\ ~ In JOURNAL_NUMBER_ALREADY_EXISTS errs.
Proof.
  exists [NOT_EQUALS]. split; [reflexivity|].
  destruct (edit_reports_every_failed_check any_date same same no_fault
              store1 store1 7 1 (Numeric 1)
              (request "J-1"
                 [line 1 (Numeric 100) Absent; line 2 Absent (Numeric 90)])
              (form_of "J-1" [entry_line 1 (Some 100) None;
                              entry_line 2 None (Some 90)])
              [NOT_EQUALS] eq_refl eq_refl eq_refl)
    as (_ & _ & Hne & Hnum & _).
  split.
  - apply Hne. vm_compute. discriminate.
  - intros H. apply Hnum in H as (d & [<-|[]] & _ & Hid). apply Hid. reflexivity.
Defined.

Lemma edit_keeps_ids_and_creators_witness :
  let s2 := (edit no_fault store1 1 "J-1"
               [line 1 (Numeric 40) Absent; line 2 Absent (Numeric 40)]).1 in
  map mj_id (manual_journals s2) = map mj_id (manual_journals store1)
  /\ map mj_user_id (manual_journals s2) = map mj_user_id (manual_journals store1).
Proof.
  destruct (edit_keeps_ids_and_creators any_date same same no_fault store1
              (edit no_fault store1 1 "J-1"
                 [line 1 (Numeric 40) Absent; line 2 Absent (Numeric 40)]).1
              7 (Numeric 1)
              (request "J-1"
                 [line 1 (Numeric 40) Absent; line 2 Absent (Numeric 40)])
              (Ok None))
    as (H1 & H2 & _).
  - vm_compute. reflexivity.
  - split; [exact H1|exact H2].
Defined.

Lemma edit_leaves_no_journal_entry_witness :
  let s2 := (edit no_fault store1 1 "J-1"
               [line 1 (Numeric 40) Absent; line 2 Absent (Numeric 40)]).1 in
  exists id,
    numeric_field (Numeric 1) = Some id
    /\ transactions_of ["Journal"%string] id s2 = []
    /\ forall t, In t (account_transactions s2) ->
                 In t (account_transactions store1).
Proof.
  apply (edit_leaves_no_journal_entry any_date same same no_fault store1
           (edit no_fault store1 1 "J-1"
              [line 1 (Numeric 40) Absent; line 2 Absent (Numeric 40)]).1
           7 (Numeric 1)
           (request "J-1"
              [line 1 (Numeric 40) Absent; line 2 Absent (Numeric 40)])).
  vm_compute. reflexivity.
Defined.
